(** * soundcloud_tools.client: the route dispatcher and its helpers

    A shallow embedding of [soundcloud_tools/client.py]: the parameter
    splitting of [SplitParams.from_route], the [route] decorator's [caller],
    [Client.make_request], [Client.make_url], [Client.get_next_offset] and
    [Client.get_all_tracks], followed by the properties the specification
    states about them.

    Python dictionaries are finite maps from strings ([gmap string value]),
    exceptions are an explicit [Raise] outcome, and the two effects of the
    client (log lines and HTTP requests) are threaded through a state
    monad whose state records the log and the requests sent so far. *)

From Stdlib Require Import Ascii.
From stdpp Require Import gmap strings list fin_maps pretty.

Set Warnings "-register-all".

Local Open Scope string_scope.
Local Open Scope Z_scope.

(** ** Python values *)

(** The values that travel through the client: scalars, lists, dicts with
    string keys, and instances of pydantic models ([BaseModel]), given by
    their fields. Floats do not occur in the code under study. *)
Inductive value :=
  | VNone
  | VBool (b : bool)
  | VInt (z : Z)
  | VStr (s : string)
  | VList (l : list value)
  | VDict (d : gmap string value)
  | VModel (fields : gmap string value).

Abbreviation pydict := (gmap string value).

(** [bool(v)]: what [if v], [v or w] and [v and w] test. A model instance
    defines neither [__bool__] nor [__len__], so it is always true. *)
Definition truthy (v : value) : bool :=
  match v with
  | VNone => false
  | VBool b => b
  | VInt z => negb (z =? 0)
  | VStr s => negb (String.eqb s EmptyString)
  | VList l => match l with [] => false | _ => true end
  | VDict d => negb (bool_decide (d = ∅))
  | VModel _ => true
  end.

(** [v or w] *)
Definition py_or_else (v w : value) : value := if truthy v then v else w.

(** [BaseModel.model_dump] in json mode, field by field. *)
Fixpoint model_dump (v : value) : value :=
  match v with
  | VList l => VList (model_dump <$> l)
  | VDict d => VDict (model_dump <$> d)
  | VModel d => VDict (model_dump <$> d)
  | _ => v
  end.

(** ** Exceptions and outcomes *)

Inductive exn :=
  | KeyError (key : string)
  | TypeError
  | AttributeError
  | ValueError
  | ValidationError
  | TransportError.

Inductive outcome (A : Type) :=
  | Ok (a : A)
  | Raise (e : exn).
Arguments Ok {A} a.
Arguments Raise {A} e.

Definition outcome_bind {A B} (m : outcome A) (f : A → outcome B) : outcome B :=
  match m with
  | Ok a => f a
  | Raise e => Raise e
  end.

Declare Scope outcome_scope.
Delimit Scope outcome_scope with out.
Notation "x <- m ;; k" := (outcome_bind m (fun x => k))
  (at level 100, m at next level, right associativity) : outcome_scope.

(** ** Dictionary operations *)

(** [a | b]: the entries of both, those of the right operand winning. *)
Definition dict_or (a b : pydict) : pydict := b ∪ a.

(** [d.update(e)], as the new contents of [d]. *)
Definition dict_update (d e : pydict) : pydict := e ∪ d.

(** [d.pop(k, dflt)]: the value popped and the new contents of [d]. *)
Definition dict_pop (k : string) (dflt : value) (d : pydict) : value * pydict :=
  (default dflt (d !! k), delete k d).

(** [d.get(k, dflt)] *)
Definition dict_get (k : string) (dflt : value) (d : pydict) : value :=
  default dflt (d !! k).

(** [d.setdefault(k, v)], as the new contents of [d]. *)
Definition dict_setdefault (k : string) (v : value) (d : pydict) : pydict :=
  match d !! k with
  | Some _ => d
  | None => <[k := v]> d
  end.

(** [{k: v for k, v in d.items() if k in names}] and its complement. *)
Definition keep_keys (names : gset string) (d : pydict) : pydict :=
  filter (λ kv, kv.1 ∈ names) d.
Definition drop_keys (names : gset string) (d : pydict) : pydict :=
  filter (λ kv, kv.1 ∉ names) d.

(** The left operand of [x | some_dict]: anything but a dict is a
    [TypeError] ([dict.__ror__] only accepts dicts). *)
Definition as_or_operand (v : value) : outcome pydict :=
  match v with
  | VDict d => Ok d
  | _ => Raise TypeError
  end.

(** The receiver of [x.update(...)]: only dicts have the method. *)
Definition as_update_receiver (v : value) : outcome pydict :=
  match v with
  | VDict d => Ok d
  | _ => Raise AttributeError
  end.

(** The argument of [d.update(x)]. A dict is merged; an empty list or
    string is an empty iterable of pairs; a scalar is not iterable. Other
    iterables of key/value pairs are not part of this model and are
    reported as [ValueError], which is what Python raises for an element
    that is not a pair. *)
Definition as_update_argument (v : value) : outcome pydict :=
  match v with
  | VDict d => Ok d
  | VList [] => Ok ∅
  | VStr EmptyString => Ok ∅
  | VNone | VBool _ | VInt _ => Raise TypeError
  | _ => Raise ValueError
  end.

(** ** Path templates *)

(** A path template such as [users/{user_id}/likes] is literal text and
    named fields. Both readers of the template, starlette's [compile_path]
    and [str.format], see the same pieces on the templates the client
    declares (brace-free text and [{identifier}] fields), so a declaration
    is given by its pieces. *)
Inductive piece :=
  | Lit (text : string)
  | Field (name : string).

Abbreviation template := (list piece).

Fixpoint field_names (path : template) : list string :=
  match path with
  | [] => []
  | Lit _ :: rest => field_names rest
  | Field k :: rest => k :: field_names rest
  end.

(** [compile_path(path)], third component (the parameter convertors, of
    which the code keeps the key set); starlette rejects a template that
    names a parameter twice with [ValueError]. *)
Definition compile_path (path : template) : outcome (gset string) :=
  if bool_decide (NoDup (field_names path))
  then Ok (list_to_set (field_names path))
  else Raise ValueError.

(** ** The world: log lines and requests *)

Inductive log_record :=
  | MakingRequestTo (url : string)                       (* info, [caller] *)
  | MakingRequest (method url : string)                  (* info, [make_request] *)
  | ResponseFor (status : Z) (method url : string)       (* info, [make_request] *)
  | FailedToDecode (status : Z) (content : string).      (* error, [caller] *)

Inductive level := INFO | ERROR.

Definition level_of (r : log_record) : level :=
  match r with
  | FailedToDecode _ _ => ERROR
  | _ => INFO
  end.

(** What [requests.request] with a method, a url and keyword arguments is called with. *)
Record request := Request {
  req_method : string;
  req_url : string;
  req_kwargs : pydict;
}.

(** The [requests.Response] object, as far as the client looks at it;
    [json = None] stands for [response.json()] raising [JSONDecodeError]. *)
Module Response.
Record t := mk {
  status_code : Z;
  content : string;
  url : string;
  json : option value;
}.
End Response.

Record world := World {
  log : list log_record;
  sent : list request;
}.

(** Computations of the client: they read and extend the world and end in
    a value or an exception. *)
Definition M (A : Type) : Type := world → world * outcome A.

Definition ret {A} (a : A) : M A := λ w, (w, Ok a).
Definition raise {A} (e : exn) : M A := λ w, (w, Raise e).
Definition bind {A B} (m : M A) (f : A → M B) : M B :=
  λ w, match m w with
       | (w', Ok a) => f a w'
       | (w', Raise e) => (w', Raise e)
       end.
Definition lift {A} (o : outcome A) : M A := λ w, (w, o).
Definition logger (r : log_record) : M unit :=
  λ w, (World (log w ++ [r]) (sent w), Ok tt).

Declare Scope client_scope.
Delimit Scope client_scope with client.
Notation "x <- m ;; k" := (bind m (fun x => k))
  (at level 100, m at next level, right associativity) : client_scope.
Notation "m ;;; k" := (bind m (fun _ => k))
  (at level 100, right associativity) : client_scope.

(** ** Settings and the client *)

(** [get_settings()]: the process-wide settings, read from the
    environment by a module that is not among the sources; they are a
    parameter of the client. *)
Record Settings := {
  base_url_setting : string;
  oauth_token : string;
  datadome_clientid : string;
  client_id : string;
  proxy : option string;
}.

(** [if get_settings().proxy] *)
Definition proxy_set (st : Settings) : bool :=
  match proxy st with
  | Some p => negb (String.eqb p EmptyString)
  | None => false
  end.

Module Client.
Record t := mk {
  settings : Settings;
  base_url : string;
  headers : pydict;
  params : pydict;
  proxies : pydict;
}.
End Client.

(** [Client.__init__]; [user_agent] is the outcome of
    [generate_random_user_agent()]. *)
Definition Client_init (st : Settings) (user_agent : string) : Client.t :=
  {| Client.settings := st;
     Client.base_url := base_url_setting st;
     Client.headers :=
       {[ "Authorization" := VStr ("OAuth " +:+ oauth_token st);
          "User-Agent" := VStr user_agent;
          "x-datadome-clientid" := VStr (datadome_clientid st) ]};
     Client.params :=
       {[ "client_id" := VStr (client_id st);
          "app_version" := VStr "1739181955";
          "app_locale" := VStr "en" ]};
     Client.proxies :=
       match proxy st with
       | Some p => if proxy_set st then {[ "https://" := VStr ("https://" +:+ p) ]} else ∅
       | None => ∅
       end |}.

(** [Client.json_dump] *)
Definition json_dump (data : value) : value :=
  match data with
  | VModel _ => model_dump data
  | _ => data
  end.

(** ** Endpoints and parameter splitting *)

(** The function a route decorates, as [from_route] uses it:
    - [get_default_kwargs]: the result of [get_default_kwargs(endpoint)], a
      helper of [soundcloud_tools.utils] that is not among the sources; it
      is a parameter of the endpoint;
    - [data_annotation]: the annotation of the [data] parameter, if any,
      with the serializer [TypeAdapter(data_type).dump_json] it stands for;
    - [endpoint_call]: calling the function with the caller's keyword
      arguments, which binds them to the signature ([TypeError] when they
      do not fit) and returns [None] or a dict of additional parameters. *)
Record Endpoint := {
  get_default_kwargs : pydict;
  data_annotation : option (value → outcome string);
  endpoint_call : pydict → outcome (option pydict);
}.

Module SplitParams.
Record t := mk {
  client : Client.t;
  path_params : pydict;
  query_params : pydict;
  data : value;
  content : option string;
  kwargs : pydict;
}.
End SplitParams.

(** [SplitParams.from_route] *)
Definition from_route (client : Client.t) (endpoint : Endpoint) (path : template)
    (kwargs : pydict) : outcome SplitParams.t :=
  (let full_kwargs := dict_or (get_default_kwargs endpoint) kwargs in
   returned <- endpoint_call endpoint kwargs ;;
   let additional_params := default ∅ returned in
   expected_path_params <- compile_path path ;;
   let '(popped, full_kwargs) := dict_pop "kwargs" (VDict ∅) full_kwargs in
   params_kwargs <- as_update_receiver popped ;;
   let '(popped, additional_params) := dict_pop "kwargs" (VDict ∅) additional_params in
   endpoint_kwargs <- as_update_argument popped ;;
   let params_kwargs := dict_update params_kwargs endpoint_kwargs in
   let '(popped, full_kwargs) := dict_pop "data" VNone full_kwargs in
   let params_data := py_or_else popped (dict_get "data" VNone additional_params) in
   params_content <-
     (if truthy params_data
      then match data_annotation endpoint with
           | Some dump_json => (c <- dump_json params_data ;; Ok (Some c))
           | None => Ok None
           end
      else Ok None) ;;
   let params_path_params := keep_keys expected_path_params full_kwargs in
   let params_query_params := drop_keys expected_path_params full_kwargs in
   endpoint_query <- as_update_argument (dict_get "query" (VDict ∅) additional_params) ;;
   let params_query_params := dict_update params_query_params endpoint_query in
   let '(popped, params_query_params) := dict_pop "params" (VDict ∅) params_query_params in
   passed_params <- as_update_argument popped ;;
   let params_query_params := dict_update params_query_params passed_params in
   Ok (SplitParams.mk client params_path_params params_query_params
         params_data params_content params_kwargs))%out.

(** Binding the arguments of a call [f(a, b, k1=v1, ..., **star)]: a key
    of [star] that names a positional parameter already filled or repeats
    an explicit keyword is a [TypeError]. *)
Definition bind_keywords (filled : list string) (explicit : list (string * value))
    (star : pydict) : outcome pydict :=
  if bool_decide (Forall (λ k, star !! k = None) (filled ++ explicit.*1))
  then Ok (list_to_map explicit ∪ star)
  else Raise TypeError.

(** ** Routes *)

(** [route(method, path, response_model)(endpoint_func)]; a response
    model is given by the validator [TypeAdapter(response_model)
    .validate_python], [None] standing for its [ValidationError]. *)
Module Route.
Record t (R : Type) := mk {
  method : string;
  path : template;
  response_model : option (value → option R);
  endpoint : Endpoint;
}.
Arguments mk {R}.
Arguments method {R}.
Arguments path {R}.
Arguments response_model {R}.
Arguments endpoint {R}.
End Route.

(** What a routed call returns: nothing ([None]), the parsed body, or the
    validated model. *)
Inductive reply (R : Type) :=
  | NoData
  | Parsed (response_data : value)
  | Validated (r : R).
Arguments NoData {R}.
Arguments Parsed {R}.
Arguments Validated {R}.

(** Modelled from the spec: [get_default_kwargs] of [soundcloud_tools.utils]
    is not among the sources. By the specification it extracts the
    defaults declared in the endpoint's signature (use declared defaults
    unless the caller overrides). An endpoint whose body is [...] is then
    given by the parameters without default, the declared defaults and the
    annotation of [data]; calling it checks the keyword arguments against
    the signature and returns [None]. *)
Definition stub (required : gset string) (defaults : pydict)
    (data_type : option (value → outcome string)) : Endpoint :=
  {| get_default_kwargs := defaults;
     data_annotation := data_type;
     endpoint_call := λ kwargs,
       if bool_decide (required ⊆ dom kwargs ∧ dom kwargs ⊆ required ∪ dom defaults)
       then Ok None
       else Raise TypeError |}.

(** ** Batches of track ids *)

(** Modelled from the spec: [chunk_list] of [soundcloud_tools.utils] is not
    among the sources. By the specification it cuts the list into
    consecutive batches of the given size, the last one holding what is
    left (75 ids in batches of 30: 30, 30, 15). The specification says
    nothing about a batch size of 0. *)
Fixpoint chunk_list_fuel {A} (fuel : nat) (lst : list A) (n : nat) : list (list A) :=
  match fuel with
  | O => []
  | S fuel =>
      match lst with
      | [] => []
      | _ => take n lst :: chunk_list_fuel fuel (drop n lst) n
      end
  end.

Definition chunk_list {A} (lst : list A) (n : nat) : list (list A) :=
  chunk_list_fuel (length lst) lst n.

(** [sep.join(parts)] *)
Definition str_join (sep : string) (parts : list string) : string :=
  match parts with
  | [] => EmptyString
  | p :: ps => foldl (λ acc q, acc +:+ sep +:+ q) p ps
  end.

(** [Client.prepare_track_ids] *)
Definition prepare_track_ids (ids : list Z) : string :=
  str_join "," (pretty <$> ids).

Section Dispatcher.

(** [str(v)] of a list, dict or model instance, as [str.format] inserts
    it: Python's [repr] machinery, left abstract. *)
Variable py_repr : value → string.

(** The remote service: the answer of [requests.request] to the [n]-th
    request of the run, or a transport-level exception. *)
Variable transport : nat → request → outcome Response.t.

(** What a replacement field without conversion or format spec inserts
    for [v], that is [str(v)]. *)
Definition py_str (v : value) : string :=
  match v with
  | VNone => "None"
  | VBool true => "True"
  | VBool false => "False"
  | VInt z => pretty z
  | VStr s => s
  | _ => py_repr v
  end.

(** [path.format] applied to the path parameters: a field that is not among the keyword
    arguments is a [KeyError]. *)
Fixpoint str_format (path : template) (path_params : pydict) : outcome string :=
  match path with
  | [] => Ok EmptyString
  | Lit s :: rest =>
      (r <- str_format rest path_params ;; Ok (s +:+ r))%out
  | Field k :: rest =>
      match path_params !! k with
      | Some v => (r <- str_format rest path_params ;; Ok (py_str v +:+ r))%out
      | None => Raise (KeyError k)
      end
  end.

(** [Client.make_url] *)
Definition make_url (self : Client.t) (path : template) (path_params : pydict)
  : outcome string :=
  (p <- str_format path path_params ;;
   Ok (Client.base_url self +:+ "/" +:+ p))%out.

(** [requests.request] with a method, a url and keyword arguments: the request goes out and
    the service answers. *)
Definition requests_request (method url : string) (kwargs : pydict) : M Response.t :=
  λ w, let r := Request method url kwargs in
       (World (log w) (sent w ++ [r]), transport (length (sent w)) r).

(** [Client.make_request], lines 103 to 107: the keyword arguments it
    hands on to [requests.request]. *)
Definition make_request_kwargs (self : Client.t) (kwargs : pydict) : outcome pydict :=
  (caller_params <- as_or_operand (dict_get "params" (VDict ∅) kwargs) ;;
   let kwargs := <["params" := VDict (dict_or caller_params (Client.params self))]> kwargs in
   caller_headers <- as_or_operand (dict_get "headers" (VDict ∅) kwargs) ;;
   let kwargs := <["headers" := VDict (dict_or caller_headers (Client.headers self))]> kwargs in
   let kwargs :=
     if proxy_set (Client.settings self)
     then dict_setdefault "proxies" (VDict (Client.proxies self)) kwargs
     else kwargs in
   let kwargs := dict_setdefault "verify" (VBool false) kwargs in
   Ok kwargs)%out.

(** [Client.make_request] *)
Definition make_request (self : Client.t) (method url : string) (kwargs : pydict)
  : M Response.t :=
  (kwargs <- lift (make_request_kwargs self kwargs) ;;
   logger (MakingRequest method url) ;;;
   response <- requests_request method url kwargs ;;
   logger (ResponseFor (Response.status_code response) method (Response.url response)) ;;;
   ret response)%client.

(** The keyword arguments of the call of [make_request] in [caller]:
    [data] and [params] given explicitly, then the transport options of
    the split, after [self], [method] and [url] were given by position. *)
Definition make_request_arguments (split_params : SplitParams.t) (params : value)
  : outcome pydict :=
  bind_keywords ["self"; "method"; "url"]
    [("data", from_option VStr VNone (SplitParams.content split_params));
     ("params", params)]
    (SplitParams.kwargs split_params).

(** The function [caller] that [route] puts in place of the endpoint. *)
Definition caller {R} (rt : Route.t R) (self : Client.t) (kwargs : pydict)
  : M (reply R) :=
  (split_params <- lift (from_route self (Route.endpoint rt) (Route.path rt) kwargs) ;;
   url <- lift (make_url self (Route.path rt) (SplitParams.path_params split_params)) ;;
   let params := json_dump (VDict (SplitParams.query_params split_params)) in
   logger (MakingRequestTo url) ;;;
   request_kwargs <- lift (make_request_arguments split_params params) ;;
   response <- make_request self (Route.method rt) url request_kwargs ;;
   match Response.json response with
   | None =>
       logger (FailedToDecode (Response.status_code response) (Response.content response)) ;;;
       ret NoData
   | Some response_data =>
       match Route.response_model rt with
       | None => ret (Parsed response_data)
       | Some validate_python =>
           match validate_python response_data with
           | Some r => ret (Validated r)
           | None => raise ValidationError
           end
       end
   end)%client.

(** ** Tracks *)

(** [scm.Track] and the validator of [list[scm.Track]]; the models are not
    among the sources. *)
Variable Track : Type.
Variable validate_tracks : value → option (list Track).

(** [Client.get_tracks]: GET [tracks], one required parameter [ids]. *)
Definition get_tracks_route : Route.t (list Track) :=
  Route.mk "GET" [Lit "tracks"] (Some validate_tracks) (stub {["ids"]} ∅ None).

Definition get_tracks (self : Client.t) (kwargs : pydict) : M (reply (list Track)) :=
  caller get_tracks_route self kwargs.

(** [for track in reply]: [None] is not iterable. A parsed body that was
    not validated cannot come out of [get_tracks], which declares a
    response model. *)
Definition iterate_tracks (r : reply (list Track)) : outcome (list Track) :=
  match r with
  | Validated tracks => Ok tracks
  | NoData => Raise TypeError
  | Parsed _ => Raise TypeError
  end.

(** The comprehension of [Client.get_all_tracks], batch by batch. *)
Fixpoint collect_tracks (self : Client.t) (chunks : list (list Z)) : M (list Track) :=
  match chunks with
  | [] => ret []
  | track_ids_chunk :: rest =>
      (r <- get_tracks self {[ "ids" := VStr (prepare_track_ids track_ids_chunk) ]} ;;
       tracks <- lift (iterate_tracks r) ;;
       more <- collect_tracks self rest ;;
       ret (tracks ++ more)%list)%client
  end.

(** [Client.get_all_tracks] *)
Definition get_all_tracks (self : Client.t) (track_ids : list Z) (chunk_size : nat)
  : M (list Track) :=
  collect_tracks self (chunk_list track_ids chunk_size).

Definition default_chunk_size : nat := 30%nat.

End Dispatcher.

(** ** Next-page URLs *)

(** Strings are sequences of bytes (the UTF-8 encoding of the Python
    string); every delimiter below is an ASCII character, so splitting
    bytes and splitting code points agree. *)







(** [s.split(c)] *)
Fixpoint split_on (c : ascii) (s : string) : list string :=
  match s with
  | EmptyString => [EmptyString]
  | String x t =>
      if Ascii.eqb x c then EmptyString :: split_on c t
      else match split_on c t with
           | p :: ps => String x p :: ps
           | [] => [String x EmptyString]
           end
  end.









(** ** A client to run the model on *)

Definition example_settings : Settings :=
  {| base_url_setting := "https://api-v2.soundcloud.com";
     oauth_token := "secret";
     datadome_clientid := "dd-1";
     client_id := "client-default";
     proxy := None |}.

Definition example_client : Client.t := Client_init example_settings "agent/1.0".

Definition example_repr (v : value) : string := "<object>".

Definition empty_world : world := World [] [].

(** A service that answers every request with the same response. *)
Definition constant_transport (r : Response.t) : nat → request → outcome Response.t :=
  λ _ _, Ok r.

Definition not_json : Response.t :=
  Response.mk 502 "<html>Bad Gateway</html>" "https://api-v2.soundcloud.com/" None.

Definition json_reply (v : value) : Response.t :=
  Response.mk 200 "..." "https://api-v2.soundcloud.com/" (Some v).

(** A serializer in the manner of [TypeAdapter(PlaylistCreateRequest).dump_json]:
    the payload must carry a title. *)
Definition playlist_create_dump (v : value) : outcome string :=
  match v with
  | VDict d | VModel d =>
      match d !! "title" with
      | Some (VStr title) => Ok ("{title:" +:+ title +:+ "}")
      | _ => Raise ValidationError
      end
  | _ => Raise ValidationError
  end.

(** A response model in the manner of [scm.Playlist]: the body must be an
    object with an id. *)
Definition playlist_model (v : value) : option value :=
  match v with
  | VDict d => match d !! "id" with Some (VInt _) => Some (VModel d) | _ => None end
  | _ => None
  end.


Definition get_playlist_route : Route.t value :=
  Route.mk "GET" [Lit "playlists/"; Field "playlist_id"] (Some playlist_model)
    (stub {["playlist_id"]} {[ "show_tracks" := VBool true ]} None).




(** A service that answers a lookup of tracks with the ids it was asked
    for, and a validator that reads each id as a track. *)
Definition echo_transport : nat → request → outcome Response.t :=
  λ _ req,
    match req_kwargs req !! "params" with
    | Some (VDict p) =>
        match p !! "ids" with
        | Some (VStr ids) => Ok (json_reply (VStr ids))
        | _ => Raise TransportError
        end
    | _ => Raise TransportError
    end.

Definition ids_as_tracks (v : value) : option (list string) :=
  match v with
  | VStr ids => Some (split_on "," ids)
  | _ => None
  end.

Definition thirty_one_ids : list Z := Z.of_nat <$> seq 1 31.

(** Keyword arguments for [make_request] that collide with the client's
    defaults: a [client_id] query parameter and a [User-Agent] header. *)
Definition colliding_kwargs : pydict :=
  {[ "params" := VDict {[ "client_id" := VStr "caller-value"; "limit" := VInt 5 ]};
     "headers" := VDict {[ "User-Agent" := VStr "caller-agent" ]} ]}.

(** Calls of [post_playlist]: with a payload, and with the empty payload. *)
Definition playlist_kwargs : pydict :=
  {[ "data" := VDict {[ "title" := VStr "Week 45" ]} ]}.


(** A service that answers every request with a playlist. *)
Definition playlist_service : nat → request → outcome Response.t :=
  constant_transport (json_reply (VDict {[ "id" := VInt 1 ]})).


(** ** Vocabulary of the statements *)

(** The entries a [d.update(v)] that succeeds adds to [d]. *)
Definition update_entries (v : value) : pydict :=
  match v with
  | VDict d => d
  | _ => ∅
  end.

(** The arguments of a routed call that are left for the path and the
    query: the caller's keyword arguments over the declared defaults,
    without the reserved [kwargs] and [data]. *)
Definition plain_arguments (endpoint : Endpoint) (kwargs : pydict) : pydict :=
  delete "data" (delete "kwargs" (dict_or (get_default_kwargs endpoint) kwargs)).

(** The URL of the route [tracks]. *)
Definition tracks_url (self : Client.t) : string := Client.base_url self +:+ "/tracks".

(** The request of [get_tracks] for one batch of ids: GET on the
    [tracks] URL, the ids in the query over which the client's own
    parameters are laid, the client's headers, no body, the proxies when
    a proxy is set, and no certificate verification. *)
Definition tracks_request (self : Client.t) (chunk : list Z) : request :=
  let params : pydict := {[ "ids" := VStr (prepare_track_ids chunk) ]} in
  Request "GET" (tracks_url self)
    (dict_setdefault "verify" (VBool false)
       ((if proxy_set (Client.settings self)
         then dict_setdefault "proxies" (VDict (Client.proxies self))
         else id)
          (<["headers" := VDict (Client.headers self)]>
             (<["params" := VDict (dict_or params (Client.params self))]>
                {[ "data" := VNone; "params" := VDict params ]})))).

(** [c] is one of the characters of [s]. *)
Fixpoint occurs (c : ascii) (s : string) : Prop :=
  match s with
  | EmptyString => False
  | String x t => x = c ∨ occurs c t
  end.





(** The parts of a text, put together. *)
Definition str_concat (parts : list string) : string :=
  foldr String.append EmptyString parts.

(** A piece of the template and the text that stands for it in a URL
    made from the arguments [args]: a literal stands for itself, a field
    for the text of its argument. *)
Definition fills (py_repr : value → string) (args : pydict) (pc : piece) (s : string) : Prop :=
  match pc with
  | Lit text => s = text
  | Field k => ∃ v, args !! k = Some v ∧ s = py_str py_repr v
  end.

(** ** Keyword arguments that Python can bind *)

(** A call [f(a, b, **kwargs)] raises [TypeError] when [kwargs] repeats a
    parameter that is already given. [make_request] is called with
    [self], [method] and [url] given; [caller] passes its keyword
    arguments on to [from_route] beside [client], [endpoint] and [path]. *)
Definition binds_beside (given : list string) (kwargs : pydict) : Prop :=
  Forall (λ k, kwargs !! k = None) given.

Definition request_keywords (kwargs : pydict) : Prop :=
  binds_beside ["self"; "method"; "url"] kwargs.

Definition route_keywords (kwargs : pydict) : Prop :=
  binds_beside ["self"; "cls"; "client"; "endpoint"; "path"] kwargs.

(** ** The endpoints the client declares *)

(** A declaration [@route(method, path, ...)] over a function whose body is
    [...]: the parameters without default, the parameters with their
    defaults, in the order of the signature, and whether [data] is
    annotated with a schema. *)
Record declaration := Declaration {
  decl_method : string;
  decl_path : template;
  decl_required : list string;
  decl_defaults : list (string * value);
  decl_data : bool;
}.

Definition decl_parameters (d : declaration) : list string :=
  decl_required d ++ (decl_defaults d).*1.

Definition paging (limit : Z) (offset : value) : list (string * value) :=
  [("limit", VInt limit); ("offset", offset); ("linked_partitioning", VBool true)].

(** The routes of [Client], lines 133 to 210; [sc_a_id] is
    [get_settings().sc_a_id], the default of [get_stream]. *)
Definition declared_endpoints (sc_a_id : value) : list (string * declaration) :=
  [ ("post_playlist",
     Declaration "POST" [Lit "playlists"] ["data"] [] true);
    ("get_playlist",
     Declaration "GET" [Lit "playlists/"; Field "playlist_id"] ["playlist_id"]
       [("show_tracks", VBool true)] false);
    ("get_user_likes",
     Declaration "GET" [Lit "users/"; Field "user_id"; Lit "/likes"] ["user_id"]
       (paging 100 VNone) false);
    ("get_user_comments",
     Declaration "GET" [Lit "users/"; Field "user_id"; Lit "/comments"] ["user_id"]
       (paging 100 VNone ++ [("threaded", VInt 0)]) false);
    ("get_user_reposts",
     Declaration "GET" [Lit "stream/users/"; Field "user_id"; Lit "/reposts"] ["user_id"]
       (paging 100 VNone) false);
    ("get_user_followings_ids",
     Declaration "GET" [Lit "users/"; Field "user_id"; Lit "/followings/ids"] ["user_id"]
       [("limit", VInt 5000); ("linked_partitioning", VBool true)] false);
    ("get_user_followers_ids",
     Declaration "GET" [Lit "users/"; Field "user_id"; Lit "/followers/ids"] ["user_id"]
       [("limit", VInt 5000); ("linked_partitioning", VBool true)] false);
    ("get_track",
     Declaration "GET" [Lit "tracks/"; Field "track_id"] ["track_id"] [] false);
    ("get_stream",
     Declaration "GET" [Lit "stream"] ["user_urn"]
       ([("sc_a_id", sc_a_id); ("promoted_playlist", VBool true)] ++ paging 100 (VInt 0))
       false);
    ("search",
     Declaration "GET" [Lit "search"] ["q"] [("limit", VInt 20); ("offset", VInt 0)] false);
    ("get_artist_shortcuts",
     Declaration "GET" [Lit "me/artist-shortcuts"] [] (paging 1000 VNone) false);
    ("get_artist_shortcut_stories",
     Declaration "GET" [Lit "me/artist-shortcuts/stories/"; Field "user_urn"] ["user_urn"]
       [] false);
    ("update_playlist_image",
     Declaration "PUT" [Lit "playlists/"; Field "playlist_urn"; Lit "/artwork"]
       ["playlist_urn"; "data"] [] true);
    ("get_user_playlists",
     Declaration "GET" [Lit "users/"; Field "user_id"; Lit "/playlists_without_albums"]
       ["user_id"]
       [("offset", VInt 0); ("limit", VInt 12); ("linked_partitioning", VBool true)] false);
    ("get_tracks",
     Declaration "GET" [Lit "tracks"] ["ids"] [] false) ].

(** The endpoint and the route of a declaration; [dump_json] is the
    serializer of the schema that annotates [data], [response_model] the
    validator of the response model, if one is declared. *)
Definition declaration_endpoint (dump_json : value → outcome string) (d : declaration)
  : Endpoint :=
  stub (list_to_set (decl_required d)) (list_to_map (decl_defaults d))
    (if decl_data d then Some dump_json else None).

Definition declaration_route {R} (d : declaration) (dump_json : value → outcome string)
    (response_model : option (value → option R)) : Route.t R :=
  Route.mk (decl_method d) (decl_path d) response_model (declaration_endpoint dump_json d).

(** What the table of declarations shows of every entry: the placeholders
    of the path are distinct parameters without default, no parameter is
    called [kwargs] or [params], and [data] is a parameter exactly where
    it is annotated, and then without default and not in the path. *)
Definition well_declared (d : declaration) : Prop :=
  NoDup (field_names (decl_path d)) ∧
  field_names (decl_path d) ⊆ decl_required d ∧
  ("kwargs" ∉ decl_parameters d) ∧
  ("params" ∉ decl_parameters d) ∧
  ("data" ∉ field_names (decl_path d)) ∧
  ("data" ∉ (decl_defaults d).*1) ∧
  (decl_data d = false → "data" ∉ decl_parameters d).

Global Instance well_declared_dec d : Decision (well_declared d).
Proof. unfold well_declared. apply _. Defined.


(** ** More vocabulary *)



(** The batch [c], asked for as request number [i] of the run, is
    answered with the tracks [tracks]. *)
Definition answered {Track : Type} (transport : nat → request → outcome Response.t)
    (validate_tracks : value → option (list Track))
    (self : Client.t) (i : nat) (c : list Z) (tracks : list Track) : Prop :=
  ∃ resp d,
    transport i (tracks_request self c) = Ok resp ∧
    Response.json resp = Some d ∧ validate_tracks d = Some tracks.

(** ** More inputs to run the model on *)

(** A client behind a proxy. *)
Definition proxied_client : Client.t :=
  Client_init {| base_url_setting := "https://api-v2.soundcloud.com";
                 oauth_token := "secret";
                 datadome_clientid := "dd-1";
                 client_id := "client-default";
                 proxy := Some "127.0.0.1:8080" |} "agent/1.0".

(** An endpoint function that accepts any keyword arguments and returns
    nothing, and a route over it. *)
Definition open_endpoint : Endpoint :=
  {| get_default_kwargs := ∅;
     data_annotation := None;
     endpoint_call := λ _, Ok None |}.

Definition open_route : Route.t value :=
  Route.mk "GET" [Lit "me"] None open_endpoint.

(** Services that answer the first request of the run with the ids asked
    for, and then with an HTML page, or with a transport error. *)
Definition then_html : nat → request → outcome Response.t :=
  λ i req, if (i =? 0)%nat then echo_transport i req else Ok not_json.

Definition then_down : nat → request → outcome Response.t :=
  λ i req, if (i =? 0)%nat then echo_transport i req else Raise TransportError.

(** * Properties *)

Section Properties.

Variable py_repr : value → string.
Variable transport : nat → request → outcome Response.t.

(** ** Running [make_request] *)

Lemma make_request_run self method url kwargs w :
  make_request transport self method url kwargs w =
  match make_request_kwargs self kwargs with
  | Raise e => (w, Raise e)
  | Ok kw =>
      let req := Request method url kw in
      match transport (length (sent w)) req with
      | Ok resp =>
          (World (log w ++ [MakingRequest method url;
                            ResponseFor (Response.status_code resp) method (Response.url resp)])
                 (sent w ++ [req]), Ok resp)
      | Raise e => (World (log w ++ [MakingRequest method url]) (sent w ++ [req]), Raise e)
      end
  end.
Proof.
  unfold make_request, bind, lift, logger, requests_request, ret.
  destruct (make_request_kwargs self kwargs) as [kw|e]; [|done].
  cbn. destruct (transport _ _) as [resp|e]; [|done].
  cbn. by rewrite <- app_assoc.
Qed.

Lemma make_request_kwargs_inv self kwargs kw :
  make_request_kwargs self kwargs = Ok kw →
  ∃ caller_params caller_headers,
    dict_get "params" (VDict ∅) kwargs = VDict caller_params ∧
    dict_get "headers" (VDict ∅) kwargs = VDict caller_headers ∧
    kw = dict_setdefault "verify" (VBool false)
           ((if proxy_set (Client.settings self)
             then dict_setdefault "proxies" (VDict (Client.proxies self))
             else id)
              (<["headers" := VDict (dict_or caller_headers (Client.headers self))]>
                 (<["params" := VDict (dict_or caller_params (Client.params self))]> kwargs))).
Proof.
  unfold make_request_kwargs. intros H.
  destruct (dict_get "params" (VDict ∅) kwargs) as [| | | | |cp|] eqn:Hp; try discriminate.
  cbn in H.
  assert (Hh : dict_get "headers" (VDict ∅)
                 (<["params" := VDict (dict_or cp (Client.params self))]> kwargs)
               = dict_get "headers" (VDict ∅) kwargs).
  { unfold dict_get. by rewrite lookup_insert_ne. }
  rewrite Hh in H.
  destruct (dict_get "headers" (VDict ∅) kwargs) as [| | | | |ch|] eqn:Hhd; try discriminate.
  cbn in H. exists cp, ch. repeat split; [].
  injection H as <-. by destruct (proxy_set _).
Qed.

Lemma dict_setdefault_lookup k v d j :
  dict_setdefault k v d !! j =
  if decide (k = j) then Some (default v (d !! k)) else d !! j.
Proof.
  unfold dict_setdefault. destruct (d !! k) as [x|] eqn:E.
  - case_decide; by subst.
  - rewrite lookup_insert. case_decide; done.
Qed.

(** The merge of [make_request] keeps the client's entry of every key the
    client defines, whatever the caller passed under that key. *)
Lemma make_request_kwargs_client_entry self kwargs kw k v :
  make_request_kwargs self kwargs = Ok kw →
  Client.params self !! k = Some v →
  ∃ p, kw !! "params" = Some (VDict p) ∧ p !! k = Some v.
Proof.
  intros (cp & ch & _ & _ & ->)%make_request_kwargs_inv Hk.
  exists (dict_or cp (Client.params self)). split.
  - rewrite dict_setdefault_lookup. case_decide; [done|].
    destruct (proxy_set _); cbn.
    + rewrite dict_setdefault_lookup. case_decide; [done|].
      rewrite lookup_insert_ne by done. by rewrite lookup_insert_eq.
    + rewrite lookup_insert_ne by done. by rewrite lookup_insert_eq.
  - unfold dict_or. by apply lookup_union_Some_l.
Qed.

Lemma make_request_kwargs_verify self kwargs kw :
  make_request_kwargs self kwargs = Ok kw →
  kw !! "verify" = Some (default (VBool false) (kwargs !! "verify")).
Proof.
  intros (cp & ch & _ & _ & ->)%make_request_kwargs_inv.
  rewrite dict_setdefault_lookup. rewrite decide_True by done. f_equal. f_equal.
  destruct (proxy_set _); cbn.
  - rewrite dict_setdefault_lookup. rewrite decide_False by done.
    by rewrite !lookup_insert_ne.
  - by rewrite !lookup_insert_ne.
Qed.

(** C9. Every request that [make_request] issues carries the caller's
    [verify] option when the caller passed one and [verify=False]
    otherwise, so the client never turns certificate verification on by
    itself; and a call whose [params] and [headers] are absent or dicts
    does issue its request. *)
Theorem make_request_verify_disabled self method url kwargs w :
  let w' := (make_request transport self method url kwargs w).1 in
  (∀ req, req ∈ sent w' → req ∈ sent w ∨
     req_kwargs req !! "verify" = Some (default (VBool false) (kwargs !! "verify"))) ∧
  (∀ kw, make_request_kwargs self kwargs = Ok kw →
     sent w' = (sent w ++ [Request method url kw])%list ∧
     (kwargs !! "verify" = None → kw !! "verify" = Some (VBool false))).
Proof.
  intros w'. subst w'. rewrite make_request_run. split.
  - intros req. destruct (make_request_kwargs self kwargs) as [kw|e] eqn:E; cbn.
    + pose proof (make_request_kwargs_verify _ _ _ E) as Hv.
      destruct (transport _ _); cbn; intros [?| ->%list_elem_of_singleton]%elem_of_app; auto.
    + auto.
  - intros kw E. rewrite E. cbn. split.
    + by destruct (transport _ _).
    + intros Hn. rewrite (make_request_kwargs_verify _ _ _ E). by rewrite Hn.
Qed.

(** ** Splitting the parameters *)

Lemma as_update_argument_Ok v d : as_update_argument v = Ok d → d = update_entries v.
Proof.
  destruct v as [| | |s|l|d'|]; cbn; try discriminate.
  - destruct s; [|discriminate]. by intros [= <-].
  - destruct l; [|discriminate]. by intros [= <-].
  - by intros [= <-].
Qed.

Ltac bind_inv H :=
  repeat match type of H with
  | outcome_bind ?m _ = Ok _ =>
      let E := fresh "E" in
      destruct m eqn:E; [cbn [outcome_bind] in H | discriminate H]
  end.

Lemma compile_path_Ok path names :
  compile_path path = Ok names →
  NoDup (field_names path) ∧ names = list_to_set (field_names path).
Proof.
  unfold compile_path. case_bool_decide; [|discriminate]. by intros [= <-].
Qed.

Lemma keep_keys_lookup names (d : pydict) k :
  keep_keys names d !! k = if decide (k ∈ names) then d !! k else None.
Proof.
  unfold keep_keys. apply option_eq. intros v.
  rewrite map_lookup_filter_Some. cbn.
  case_decide; (split; [by intros [? ?]|by intros]).
Qed.

Lemma drop_keys_lookup names (d : pydict) k :
  drop_keys names d !! k = if decide (k ∈ names) then None else d !! k.
Proof.
  unfold drop_keys. apply option_eq. intros v.
  rewrite map_lookup_filter_Some. cbn.
  case_decide; (split; [by intros [? ?]|by intros]).
Qed.

Lemma dict_or_lookup (a b : pydict) k :
  dict_or a b !! k = match b !! k with Some v => Some v | None => a !! k end.
Proof.
  unfold dict_or. rewrite lookup_union. by destruct (b !! k), (a !! k).
Qed.

Lemma dict_update_lookup (d e : pydict) k :
  dict_update d e !! k = match e !! k with Some v => Some v | None => d !! k end.
Proof. apply dict_or_lookup. Qed.

Lemma plain_arguments_lookup endpoint kwargs k :
  plain_arguments endpoint kwargs !! k =
  if decide (k = "data" ∨ k = "kwargs") then None
  else match kwargs !! k with
       | Some v => Some v
       | None => get_default_kwargs endpoint !! k
       end.
Proof.
  unfold plain_arguments. rewrite !lookup_delete, dict_or_lookup.
  destruct (decide (k = "data")) as [->|Hd]; [done|].
  destruct (decide (k = "kwargs")) as [->|Hk]; [done|].
  rewrite decide_False by (by intros <-). rewrite decide_False by (by intros <-).
  rewrite decide_False by (by intros [?|?]). done.
Qed.

(** What a successful [from_route] returns. *)
Lemma from_route_Ok client ep path kwargs sp :
  from_route client ep path kwargs = Ok sp →
  let full := dict_or (get_default_kwargs ep) kwargs in
  let names : gset string := list_to_set (field_names path) in
  ∃ returned,
    endpoint_call ep kwargs = Ok returned ∧
    let additional := delete "kwargs" (default ∅ returned) in
    let q := dict_update (drop_keys names (plain_arguments ep kwargs))
               (update_entries (dict_get "query" (VDict ∅) additional)) in
    SplitParams.path_params sp = keep_keys names (plain_arguments ep kwargs) ∧
    SplitParams.query_params sp =
      dict_update (delete "params" q) (update_entries (dict_get "params" (VDict ∅) q)) ∧
    SplitParams.data sp =
      py_or_else (dict_get "data" VNone (delete "kwargs" full)) (dict_get "data" VNone additional) ∧
    (truthy (SplitParams.data sp) = true →
     ∀ dump_json, data_annotation ep = Some dump_json →
       ∃ c, dump_json (SplitParams.data sp) = Ok c ∧ SplitParams.content sp = Some c) ∧
    (truthy (SplitParams.data sp) = false ∨ data_annotation ep = None →
     SplitParams.content sp = None).
Proof.
  unfold from_route, dict_pop, plain_arguments. intros H.
  bind_inv H.
  apply compile_path_Ok in E0 as [Hnd ->].
  cbv beta iota zeta in H.
  bind_inv H.
  apply as_update_argument_Ok in E4 as ->, E5 as ->.
  injection H as <-. exists a. cbn. unfold dict_get at 3.
  repeat split; try done.
  - intros Ht dump Hd. rewrite Ht, Hd in E3.
    destruct (dump _) as [c|]; [|discriminate]. cbn in E3. injection E3 as <-. eauto.
  - intros [Ht|Hd].
    + rewrite Ht in E3. by injection E3 as <-.
    + rewrite Hd in E3. destruct (truthy _); by injection E3 as <-.
Qed.


(** ** Formatting the path *)

Lemma str_format_Ok path (path_params : pydict) :
  (∀ k, k ∈ field_names path → is_Some (path_params !! k)) →
  ∃ parts, Forall2 (fills py_repr path_params) path parts ∧
           str_format py_repr path path_params = Ok (str_concat parts).
Proof.
  induction path as [|[text|k] rest IH]; intros Hall.
  - exists []. by split; [constructor|].
  - destruct IH as (parts & Hparts & Hfmt); [done|].
    exists (text :: parts). split; [by constructor|].
    cbn. by rewrite Hfmt.
  - destruct (Hall k) as [v Hv]; [by left|].
    destruct IH as (parts & Hparts & Hfmt); [by intros; apply Hall; right|].
    exists (py_str py_repr v :: parts). split; [constructor; [by exists v|done]|].
    cbn. by rewrite Hv, Hfmt.
Qed.

Lemma fills_agree (args args' : pydict) path parts :
  (∀ k, k ∈ field_names path → args !! k = args' !! k) →
  Forall2 (fills py_repr args) path parts →
  Forall2 (fills py_repr args') path parts.
Proof.
  intros Hlook Hparts.
  induction Hparts as [|pc s rest parts' Hpc Hrest IH]; [constructor|].
  constructor.
  - destruct pc as [text|k]; [done|]. destruct Hpc as (v & Hv & ->).
    exists v. split; [|done]. rewrite <- Hlook; [done|by left].
  - apply IH. intros k Hk. apply Hlook. destruct pc; [done|by right].
Qed.



Lemma make_request_arguments_Ok sp params kw :
  make_request_arguments sp params = Ok kw →
  kw !! "data" = Some (from_option VStr VNone (SplitParams.content sp)) ∧
  kw !! "params" = Some params.
Proof.
  unfold make_request_arguments, bind_keywords.
  case_bool_decide; [|discriminate]. intros [= <-]. split.
  - apply lookup_union_Some_l. cbn. by rewrite lookup_insert_eq.
  - apply lookup_union_Some_l. cbn. rewrite lookup_insert_ne by done.
    by rewrite lookup_insert_eq.
Qed.

(** ** Running [caller] *)

Section Caller.

Context {R : Type} (rt : Route.t R) (self : Client.t) (kwargs : pydict).

Lemma caller_from_route_raises w e :
  from_route self (Route.endpoint rt) (Route.path rt) kwargs = Raise e →
  caller py_repr transport rt self kwargs w = (w, Raise e).
Proof. intros H. unfold caller, bind, lift. by rewrite H. Qed.

Lemma caller_make_url_raises w sp e :
  from_route self (Route.endpoint rt) (Route.path rt) kwargs = Ok sp →
  make_url py_repr self (Route.path rt) (SplitParams.path_params sp) = Raise e →
  caller py_repr transport rt self kwargs w = (w, Raise e).
Proof. intros H1 H2. unfold caller, bind, lift. by rewrite H1, H2. Qed.

Lemma caller_arguments_raise w sp url e :
  from_route self (Route.endpoint rt) (Route.path rt) kwargs = Ok sp →
  make_url py_repr self (Route.path rt) (SplitParams.path_params sp) = Ok url →
  make_request_arguments sp (json_dump (VDict (SplitParams.query_params sp))) = Raise e →
  caller py_repr transport rt self kwargs w =
    (World (log w ++ [MakingRequestTo url]) (sent w), Raise e).
Proof. intros H1 H2 H3. unfold caller, bind, lift, logger. by rewrite H1, H2, H3. Qed.

(** Once the parameters are split, the URL is made and the arguments are
    bound, [caller] is [make_request] followed by the treatment of the
    response. *)
Lemma caller_run w sp url kw :
  from_route self (Route.endpoint rt) (Route.path rt) kwargs = Ok sp →
  make_url py_repr self (Route.path rt) (SplitParams.path_params sp) = Ok url →
  make_request_arguments sp (json_dump (VDict (SplitParams.query_params sp))) = Ok kw →
  caller py_repr transport rt self kwargs w =
  match make_request transport self (Route.method rt) url kw
          (World (log w ++ [MakingRequestTo url]) (sent w)) with
  | (w2, Raise e) => (w2, Raise e)
  | (w2, Ok resp) =>
      match Response.json resp with
      | None =>
          (World (log w2 ++ [FailedToDecode (Response.status_code resp) (Response.content resp)])
                 (sent w2), Ok NoData)
      | Some response_data =>
          match Route.response_model rt with
          | None => (w2, Ok (Parsed response_data))
          | Some validate_python =>
              match validate_python response_data with
              | Some r => (w2, Ok (Validated r))
              | None => (w2, Raise ValidationError)
              end
          end
      end
  end.
Proof.
  intros H1 H2 H3. unfold caller, bind, lift, logger. rewrite H1, H2, H3.
  destruct (make_request _ _ _ _ _ _) as [w2 [resp|e]]; [|done].
  destruct (Response.json resp) as [d|]; [|done].
  destruct (Route.response_model rt) as [v|]; [|done].
  by destruct (v d).
Qed.

(** The requests of a routed call: at most one, for the URL made from
    the path, with the arguments of the split. *)
Lemma caller_sent w sp url req :
  from_route self (Route.endpoint rt) (Route.path rt) kwargs = Ok sp →
  make_url py_repr self (Route.path rt) (SplitParams.path_params sp) = Ok url →
  req ∈ sent (caller py_repr transport rt self kwargs w).1 →
  req ∈ sent w ∨
  (req_method req = Route.method rt ∧ req_url req = url ∧
   ∃ kw, make_request_arguments sp (json_dump (VDict (SplitParams.query_params sp))) = Ok kw ∧
         make_request_kwargs self kw = Ok (req_kwargs req)).
Proof.
  intros H1 H2.
  destruct (make_request_arguments sp (json_dump (VDict (SplitParams.query_params sp))))
    as [kw|e] eqn:H3.
  - rewrite (caller_run w sp url kw H1 H2 H3), make_request_run. cbn [sent log].
    destruct (make_request_kwargs self kw) as [kw'|e] eqn:H4; [|by left].
    cbn. assert (Hin : req ∈ (sent w ++ [Request (Route.method rt) url kw'])%list →
      req ∈ sent w ∨ (req_method req = Route.method rt ∧ req_url req = url ∧
        ∃ kw0, Ok kw = Ok kw0 ∧ make_request_kwargs self kw0 = Ok (req_kwargs req))).
    { intros [?| ->%list_elem_of_singleton]%elem_of_app; [by left|right].
      repeat split. by exists kw. }
    destruct (transport _ _) as [resp|e]; [|done].
    destruct (Response.json resp) as [d|]; [|done].
    destruct (Route.response_model rt) as [v|]; [|done].
    by destruct (v d).
  - rewrite (caller_arguments_raise w sp url e H1 H2 H3). by left.
Qed.

(** C2. When the response to a routed call has a body that does not
    parse as JSON, the call logs the failure (an error record with the
    status code and the content) and returns [None]; it does not raise,
    whatever the status code and the content are. *)
Theorem caller_soft_failure w sp url kw w2 resp :
  from_route self (Route.endpoint rt) (Route.path rt) kwargs = Ok sp →
  make_url py_repr self (Route.path rt) (SplitParams.path_params sp) = Ok url →
  make_request_arguments sp (json_dump (VDict (SplitParams.query_params sp))) = Ok kw →
  make_request transport self (Route.method rt) url kw
    (World (log w ++ [MakingRequestTo url]) (sent w)) = (w2, Ok resp) →
  Response.json resp = None →
  ∃ record,
    caller py_repr transport rt self kwargs w =
      (World (log w2 ++ [record]) (sent w2), Ok NoData) ∧
    record = FailedToDecode (Response.status_code resp) (Response.content resp) ∧
    level_of record = ERROR.
Proof.
  intros H1 H2 H3 H4 H5. eexists. split; [|split; reflexivity].
  rewrite (caller_run w sp url kw H1 H2 H3), H4. by rewrite H5.
Qed.

(** C3. When the route declares a response model, the response body
    parses as JSON and the parsed structure fails validation against the
    model, the call raises the validation error instead of returning. *)
Theorem caller_hard_failure w sp url kw w2 resp response_data validate_python :
  from_route self (Route.endpoint rt) (Route.path rt) kwargs = Ok sp →
  make_url py_repr self (Route.path rt) (SplitParams.path_params sp) = Ok url →
  make_request_arguments sp (json_dump (VDict (SplitParams.query_params sp))) = Ok kw →
  make_request transport self (Route.method rt) url kw
    (World (log w ++ [MakingRequestTo url]) (sent w)) = (w2, Ok resp) →
  Response.json resp = Some response_data →
  Route.response_model rt = Some validate_python →
  validate_python response_data = None →
  caller py_repr transport rt self kwargs w = (w2, Raise ValidationError).
Proof.
  intros H1 H2 H3 H4 H5 H6 H7.
  rewrite (caller_run w sp url kw H1 H2 H3), H4. by rewrite H5, H6, H7.
Qed.



End Caller.

(** ** Batches *)

Section Chunks.
Context {A : Type}.
Implicit Types (lst : list A) (n : nat).

Lemma chunk_list_fuel_lookup fuel lst n i :
  (0 < n)%nat → (length lst ≤ fuel)%nat →
  chunk_list_fuel fuel lst n !! i =
  if decide (i * n < length lst)%nat then Some (take n (drop (i * n) lst)) else None.
Proof.
  intros Hn. revert lst i. induction fuel as [|fuel IH]; intros lst i Hlen.
  - destruct lst; [|cbn in Hlen; lia]. cbn. rewrite decide_False by (cbn; lia). done.
  - destruct lst as [|x lst'].
    { cbn. rewrite decide_False by (cbn; lia). done. }
    cbn [chunk_list_fuel].
    assert (0 < length (x :: lst'))%nat by (cbn; lia).
    revert Hlen H. generalize (x :: lst'). clear x lst'. intros lst Hlen Hpos.
    destruct i as [|i].
    + cbn. rewrite decide_True by lia. done.
    + cbn [lookup list_lookup]. 
      change ((take n lst :: chunk_list_fuel fuel (drop n lst) n) !! S i)
        with (chunk_list_fuel fuel (drop n lst) n !! i).
      rewrite IH by (rewrite length_drop; lia).
      rewrite length_drop, drop_drop.
      replace (n + i * n)%nat with (S i * n)%nat by lia.
      destruct (decide (i * n < length lst - n)%nat), (decide (S i * n < length lst)%nat);
        try done; lia.
Qed.

Lemma chunk_list_lookup lst n i :
  (0 < n)%nat →
  chunk_list lst n !! i =
  if decide (i * n < length lst)%nat then Some (take n (drop (i * n) lst)) else None.
Proof. intros. by apply chunk_list_fuel_lookup. Qed.

Lemma chunk_list_fuel_concat fuel lst n :
  (0 < n)%nat → (length lst ≤ fuel)%nat → concat (chunk_list_fuel fuel lst n) = lst.
Proof.
  intros Hn. revert lst. induction fuel as [|fuel IH]; intros lst Hlen.
  - by destruct lst; [|cbn in Hlen; lia].
  - destruct lst as [|x lst']; [done|].
    cbn [chunk_list_fuel concat]. rewrite IH.
    + apply take_drop.
    + rewrite length_drop. cbn in *. lia.
Qed.

Lemma chunk_list_fuel_length fuel lst n :
  (0 < n)%nat → (length lst ≤ fuel)%nat →
  length (chunk_list_fuel fuel lst n) = ((length lst + n - 1) / n)%nat.
Proof.
  intros Hn. revert lst. induction fuel as [|fuel IH]; intros lst Hlen.
  - destruct lst; [|cbn in Hlen; lia]. cbn. symmetry. apply Nat.div_small. lia.
  - destruct lst as [|x lst'].
    { cbn. symmetry. apply Nat.div_small. lia. }
    cbn [chunk_list_fuel].
    assert (0 < length (x :: lst'))%nat by (cbn; lia).
    revert Hlen H. generalize (x :: lst'). clear x lst'. intros lst Hlen Hpos.
    cbn [length].
    rewrite IH by (rewrite length_drop; lia). rewrite length_drop.
    destruct (decide (length lst ≤ n)%nat).
    + replace (length lst - n + n - 1)%nat with (n - 1)%nat by lia.
      rewrite (Nat.div_small (n - 1)) by lia.
      apply (Nat.div_unique _ _ 1 (length lst - 1)); lia.
    + replace (length lst + n - 1)%nat with ((length lst - n + n - 1) + 1 * n)%nat by lia.
      rewrite Nat.div_add by lia. lia.
Qed.
End Chunks.

(** ** Resolving tracks *)

Section Tracks.

Variable Track : Type.
Variable validate_tracks : value → option (list Track).

Lemma get_tracks_run self chunk w :
  get_tracks py_repr transport Track validate_tracks self
    {[ "ids" := VStr (prepare_track_ids chunk) ]} w =
  let url := tracks_url self in
  let req := tracks_request self chunk in
  match transport (length (sent w)) req with
  | Raise e =>
      (World (log w ++ [MakingRequestTo url; MakingRequest "GET" url]) (sent w ++ [req]),
       Raise e)
  | Ok resp =>
      let w2 := World (log w ++ [MakingRequestTo url; MakingRequest "GET" url;
                                 ResponseFor (Response.status_code resp) "GET" (Response.url resp)])
                      (sent w ++ [req]) in
      match Response.json resp with
      | None =>
          (World (log w2 ++ [FailedToDecode (Response.status_code resp) (Response.content resp)])
                 (sent w2), Ok NoData)
      | Some response_data =>
          match validate_tracks response_data with
          | Some tracks => (w2, Ok (Validated tracks))
          | None => (w2, Raise ValidationError)
          end
      end
  end.
Proof.
  unfold get_tracks.
  set (ids := prepare_track_ids chunk).
  set (kw := ({[ "data" := VNone; "params" := VDict {[ "ids" := VStr ids ]} ]} : pydict)).
  assert (H1 : from_route self (Route.endpoint (get_tracks_route Track validate_tracks))
                 (Route.path (get_tracks_route Track validate_tracks)) {[ "ids" := VStr ids ]}
               = Ok (SplitParams.mk self ∅ {[ "ids" := VStr ids ]} VNone None ∅)).
  { by vm_compute. }
  assert (H4 : make_request_kwargs self kw = Ok (req_kwargs (tracks_request self chunk))).
  { unfold make_request_kwargs.
    replace (dict_get "params" (VDict ∅) kw) with (VDict {[ "ids" := VStr ids ]})
      by (by vm_compute).
    cbn [as_or_operand outcome_bind].
    unfold dict_get at 1. rewrite lookup_insert_ne by done.
    replace (kw !! "headers") with (@None value) by (by vm_compute).
    cbn [default as_or_operand outcome_bind].
    unfold tracks_request, dict_or. cbn [req_kwargs]. rewrite (right_id_L ∅ (∪)).
    by destruct (proxy_set _). }
  rewrite (caller_run _ _ _ w _ (tracks_url self) kw H1); [| |by vm_compute].
  2:{ unfold make_url, tracks_url. cbn. done. }
  rewrite make_request_run, H4. cbn [sent log length].
  change (Request (Route.method (get_tracks_route Track validate_tracks)) (tracks_url self)
            (req_kwargs (tracks_request self chunk))) with (tracks_request self chunk).
  cbv zeta.
  destruct (transport _ _) as [resp|e]; cbn [Route.method Route.response_model get_tracks_route].
  - rewrite <- (app_assoc (log w)). cbn [app].
    destruct (Response.json resp) as [d|]; [|done].
    by destruct (validate_tracks d).
  - by rewrite <- (app_assoc (log w)).
Qed.

Lemma collect_tracks_run self (answer : list Z → list Track) chunks :
  (∀ i c, c ∈ chunks → ∃ resp j,
     transport i (tracks_request self c) = Ok resp ∧
     Response.json resp = Some j ∧ validate_tracks j = Some (answer c)) →
  ∀ w, ∃ w',
    collect_tracks py_repr transport Track validate_tracks self chunks w
      = (w', Ok (concat (answer <$> chunks))) ∧
    sent w' = (sent w ++ (tracks_request self <$> chunks))%list.
Proof.
  induction chunks as [|c rest IH]; intros Hall w.
  - exists w. split; [done|]. cbn. by rewrite app_nil_r.
  - destruct (Hall (length (sent w)) c) as (resp & j & Ht & Hj & Hv); [by left|].
    cbn [collect_tracks]. unfold bind at 1. rewrite get_tracks_run. cbv zeta.
    rewrite Ht, Hj, Hv. unfold bind at 1, lift at 1. cbn [iterate_tracks].
    set (w2 := World _ _).
    destruct (IH (λ i c' Hc', Hall i c' (list_elem_of_further _ _ _ Hc')) w2) as (w' & Hrun & Hsent).
    exists w'. unfold bind. rewrite Hrun. split; [done|].
    rewrite Hsent. subst w2. cbn [sent fmap list_fmap]. by rewrite <- app_assoc.
Qed.

(** C6. With a positive batch size (30 by default), [get_all_tracks] cuts
    the ids into consecutive batches: batch [i] is the next [chunk_size]
    ids from position [i * chunk_size], so every batch but the last is
    full, there are ceil(n / chunk_size) batches and together they are
    the ids in their order. When the service answers every batch, the
    call sends exactly one lookup per batch, in order, and returns the
    answers joined in batch order; if each answer lists the tracks of its
    ids in order, the result lists the tracks of all ids in order. *)
Theorem get_all_tracks_batches self track_ids chunk_size (answer : list Z → list Track) w :
  (0 < chunk_size)%nat →
  (∀ i c, c ∈ chunk_list track_ids chunk_size → ∃ resp j,
     transport i (tracks_request self c) = Ok resp ∧
     Response.json resp = Some j ∧ validate_tracks j = Some (answer c)) →
  let chunks := chunk_list track_ids chunk_size in
  default_chunk_size = 30%nat ∧
  concat chunks = track_ids ∧
  length chunks = ((length track_ids + chunk_size - 1) / chunk_size)%nat ∧
  (∀ i, chunks !! i =
        if decide (i * chunk_size < length track_ids)%nat
        then Some (take chunk_size (drop (i * chunk_size) track_ids))
        else None) ∧
  (∃ w',
     get_all_tracks py_repr transport Track validate_tracks self track_ids chunk_size w
       = (w', Ok (concat (answer <$> chunks))) ∧
     sent w' = (sent w ++ (tracks_request self <$> chunks))%list ∧
     length (sent w') = (length (sent w) + (length track_ids + chunk_size - 1) / chunk_size)%nat) ∧
  (∀ track_of : Z → Track,
     (∀ c, c ∈ chunks → answer c = track_of <$> c) →
     concat (answer <$> chunks) = track_of <$> track_ids).
Proof.
  intros Hn Hall chunks.
  assert (Hconcat : concat chunks = track_ids) by (by apply chunk_list_fuel_concat).
  assert (Hlen : length chunks = ((length track_ids + chunk_size - 1) / chunk_size)%nat)
    by (by apply chunk_list_fuel_length).
  split; [done|]. split; [done|]. split; [done|].
  split; [intros i; by apply chunk_list_lookup|]. split.
  - destruct (collect_tracks_run self answer chunks Hall w) as (w' & Hrun & Hsent).
    exists w'. split; [done|]. split; [done|].
    by rewrite Hsent, length_app, length_fmap, Hlen.
  - intros track_of Hanswer. rewrite <- Hconcat.
    clear Hconcat Hlen Hall. clearbody chunks.
    induction chunks as [|c rest IH]; [done|].
    cbn. rewrite fmap_app, Hanswer by (by left). f_equal.
    apply IH. intros c' Hc'. apply Hanswer. by right.
Qed.

(** C10. [get_all_tracks] on the empty list of ids returns the empty list
    and leaves the world as it was: no request is sent. *)
Theorem get_all_tracks_empty self chunk_size w :
  get_all_tracks py_repr transport Track validate_tracks self [] chunk_size w = (w, Ok []) ∧
  sent (get_all_tracks py_repr transport Track validate_tracks self [] chunk_size w).1 = sent w.
Proof. done. Qed.

End Tracks.


(** ** Next-page URLs *)

Ltac str_simpl :=
  repeat match goal with
         | |- context [String ?x ?s +:+ ?t] =>
             change (String x s +:+ t) with (String x (s +:+ t))
         | |- context [EmptyString +:+ ?t] =>
             change (EmptyString +:+ t) with t
         end;
  simpl.

Section Urls.
Implicit Types (s t : string) (c : ascii).


Lemma occurs_app c s t : occurs c (s +:+ t) ↔ occurs c s ∨ occurs c t.
Proof. induction s as [|x s IH]; str_simpl; [tauto|]. rewrite IH. tauto. Qed.











Lemma split_on_id c s : ¬ occurs c s → split_on c s = [s].
Proof.
  induction s as [|y s IH]; str_simpl; intros H; [done|].
  destruct (Ascii.eqb_spec y c) as [->|]; [tauto|]. rewrite IH; tauto.
Qed.







End Urls.









End Properties.

(** C1. The merge of [make_request] at a colliding key: the caller passes
    its own [client_id] query parameter and [User-Agent] header, and the
    request that goes out carries the client's values for both. *)
Theorem make_request_collision_sends_client_value :
  ∃ req p h,
    sent (make_request (constant_transport not_json) example_client
            "GET" "https://api-v2.soundcloud.com/me" colliding_kwargs empty_world).1 = [req] ∧
    req_kwargs req !! "params" = Some (VDict p) ∧
    req_kwargs req !! "headers" = Some (VDict h) ∧
    p !! "client_id" = Some (VStr "client-default") ∧
    p !! "limit" = Some (VInt 5) ∧
    h !! "User-Agent" = Some (VStr "agent/1.0").
Proof.
  vm_compute. eexists _, _, _. repeat split.
Qed.

(** ** The properties on the example client *)

(** Closed goals are settled by evaluation. *)
Ltac run := vm_compute; reflexivity.

(** A call of [make_request] without keyword arguments: the request goes
    out with [verify=False]. *)
Lemma make_request_verify_disabled_witness :
  ∃ kw,
    make_request_kwargs example_client ∅ = Ok kw ∧
    sent (make_request (constant_transport not_json) example_client
            "GET" "https://soundcloud.com/a/b" ∅ empty_world).1
      = [Request "GET" "https://soundcloud.com/a/b" kw] ∧
    kw !! "verify" = Some (VBool false).
Proof.
  destruct (make_request_verify_disabled (constant_transport not_json) example_client
              "GET" "https://soundcloud.com/a/b" ∅ empty_world) as [_ H].
  destruct (make_request_kwargs example_client ∅) as [kw|e] eqn:E.
  - exists kw. destruct (H kw eq_refl) as [Hsent Hverify].
    split; [reflexivity|]. split; [exact Hsent|]. apply Hverify. run.
  - vm_compute in E. discriminate E.
Defined.

(** [get_playlist] against a gateway that answers with an HTML page. *)
Lemma caller_soft_failure_witness :
  ∃ w2,
    caller example_repr (constant_transport not_json) get_playlist_route example_client
      {[ "playlist_id" := VInt 7 ]} empty_world
    = (World (log w2 ++ [FailedToDecode 502 "<html>Bad Gateway</html>"]) (sent w2), Ok NoData).
Proof.
  edestruct (caller_soft_failure example_repr (constant_transport not_json)
               get_playlist_route example_client {[ "playlist_id" := VInt 7 ]} empty_world)
    as (record & Hrun & -> & _); [run|run|run|run|run|].
  eexists. exact Hrun.
Defined.

(** [get_playlist] against a service whose JSON has no id. *)
Lemma caller_hard_failure_witness :
  ∃ w2,
    caller example_repr (constant_transport (json_reply (VDict {[ "title" := VStr "untitled" ]})))
      get_playlist_route example_client {[ "playlist_id" := VInt 7 ]} empty_world
    = (w2, Raise ValidationError).
Proof.
  eexists.
  eapply (caller_hard_failure example_repr
            (constant_transport (json_reply (VDict {[ "title" := VStr "untitled" ]})))
            get_playlist_route example_client {[ "playlist_id" := VInt 7 ]} empty_world);
    [run|run|run|run|run|run|run].
Defined.







(** 31 ids with the default batch size: two lookups, and the tracks come
    back in the order of the ids. *)
Lemma get_all_tracks_batches_witness :
  ∃ w',
    get_all_tracks example_repr echo_transport string ids_as_tracks example_client
      thirty_one_ids default_chunk_size empty_world
    = (w', Ok (pretty <$> thirty_one_ids)) ∧
    length (sent w') = 2%nat.
Proof.
  assert (Hchunks : chunk_list thirty_one_ids default_chunk_size
                    = [Z.of_nat <$> seq 1 30; [31]]) by run.
  destruct (get_all_tracks_batches example_repr echo_transport string ids_as_tracks
              example_client thirty_one_ids default_chunk_size (fmap pretty) empty_world)
    as (_ & _ & _ & _ & (w' & Hrun & _ & Hlen) & Horder).
  - unfold default_chunk_size. lia.
  - intros i c Hc. rewrite Hchunks in Hc.
    apply elem_of_cons in Hc as [->|Hc]; [|apply list_elem_of_singleton in Hc as ->].
    + eexists _, _. split; [run|]. split; [reflexivity|run].
    + eexists _, _. split; [run|]. split; [reflexivity|run].
  - exists w'. split.
    + rewrite Hrun, (Horder pretty (λ c _, eq_refl)). reflexivity.
    + rewrite Hlen. run.
Defined.


(** * Further properties *)

(** ** More on [make_request] *)

Section MakeRequest.

Variable transport : nat → request → outcome Response.t.

(** The request of a call of [make_request], if it sends one. *)
Lemma make_request_sent self method url kwargs w req :
  req ∈ sent (make_request transport self method url kwargs w).1 →
  req ∈ sent w ∨
  ∃ kw, make_request_kwargs self kwargs = Ok kw ∧ req = Request method url kw.
Proof.
  rewrite make_request_run.
  destruct (make_request_kwargs self kwargs) as [kw|e]; [|by left].
  cbn. intros Hreq.
  assert (req ∈ (sent w ++ [Request method url kw])%list) as
    [?| ->%list_elem_of_singleton]%elem_of_app; [|by left|right; by exists kw].
  by destruct (transport _ _).
Qed.

(** The keyword arguments [make_request] hands on, key by key. *)
Lemma make_request_kwargs_lookup self kwargs kw k :
  make_request_kwargs self kwargs = Ok kw →
  kw !! k =
  if decide (k = "verify") then Some (default (VBool false) (kwargs !! "verify"))
  else if decide (k = "proxies") then
    match kwargs !! "proxies" with
    | Some v => Some v
    | None => if proxy_set (Client.settings self)
              then Some (VDict (Client.proxies self)) else None
    end
  else if decide (k = "headers") then
    Some (VDict (dict_or (update_entries (dict_get "headers" (VDict ∅) kwargs))
                   (Client.headers self)))
  else if decide (k = "params") then
    Some (VDict (dict_or (update_entries (dict_get "params" (VDict ∅) kwargs))
                   (Client.params self)))
  else kwargs !! k.
Proof.
  intros (cp & ch & Hp & Hh & ->)%make_request_kwargs_inv.
  rewrite Hp, Hh. cbn [update_entries].
  rewrite dict_setdefault_lookup.
  destruct (decide (k = "verify")) as [->|Hv].
  { rewrite decide_True by done. destruct (proxy_set _); cbn.
    - rewrite dict_setdefault_lookup, decide_False by done.
      by rewrite !lookup_insert_ne.
    - by rewrite !lookup_insert_ne. }
  rewrite decide_False by (by intros <-).
  destruct (decide (k = "proxies")) as [->|Hx].
  { destruct (proxy_set _); cbn.
    - rewrite dict_setdefault_lookup, decide_True by done.
      rewrite !lookup_insert_ne by done. by destruct (kwargs !! "proxies").
    - rewrite !lookup_insert_ne by done. by destruct (kwargs !! "proxies"). }
  assert (Hgo : ((if proxy_set (Client.settings self)
                  then dict_setdefault "proxies" (VDict (Client.proxies self)) else id)
                   (<["headers":=VDict (dict_or ch (Client.headers self))]>
                      (<["params":=VDict (dict_or cp (Client.params self))]> kwargs))) !! k
                = (<["headers":=VDict (dict_or ch (Client.headers self))]>
                      (<["params":=VDict (dict_or cp (Client.params self))]> kwargs)) !! k).
  { destruct (proxy_set _); [|done].
    rewrite dict_setdefault_lookup. by rewrite decide_False by (by intros <-). }
  rewrite Hgo.
  destruct (decide (k = "headers")) as [->|Hh'].
  { by rewrite lookup_insert_eq. }
  rewrite lookup_insert_ne by (by intros <-).
  destruct (decide (k = "params")) as [->|Hp'].
  { by rewrite lookup_insert_eq. }
  by rewrite lookup_insert_ne by (by intros <-).
Qed.

(** Without keyword arguments the merge goes through. *)
Lemma make_request_kwargs_empty self : ∃ kw, make_request_kwargs self ∅ = Ok kw.
Proof.
  unfold make_request_kwargs, dict_get. rewrite lookup_empty. cbn.
  rewrite lookup_insert_ne by done. rewrite lookup_empty. cbn. eauto.
Qed.

(** X1. [make_request] loses no key: the query parameters and the
    headers of the request have the keys of the caller and the keys of the
    client, and under a key that the client does not define they hold
    what the caller passed. *)
Theorem make_request_keeps_every_key self method url kwargs w req :
  request_keywords kwargs →
  req ∈ sent (make_request transport self method url kwargs w).1 →
  req ∈ sent w ∨
  ∃ p h,
    req_kwargs req !! "params" = Some (VDict p) ∧
    req_kwargs req !! "headers" = Some (VDict h) ∧
    let caller_params := update_entries (dict_get "params" (VDict ∅) kwargs) in
    let caller_headers := update_entries (dict_get "headers" (VDict ∅) kwargs) in
    dom p = dom caller_params ∪ dom (Client.params self) ∧
    dom h = dom caller_headers ∪ dom (Client.headers self) ∧
    (∀ k, Client.params self !! k = None → p !! k = caller_params !! k) ∧
    (∀ k, Client.headers self !! k = None → h !! k = caller_headers !! k).
Proof.
  intros _ [?|(kw & Hkw & ->)]%make_request_sent; [by left|right].
  eexists _, _. cbn [req_kwargs].
  split; [by rewrite (make_request_kwargs_lookup _ _ _ "params" Hkw)|].
  split; [by rewrite (make_request_kwargs_lookup _ _ _ "headers" Hkw)|].
  cbv zeta. unfold dict_or. rewrite !dom_union_L.
  split; [apply (comm_L (∪))|]. split; [apply (comm_L (∪))|].
  split; intros k Hk; by rewrite lookup_union_r.
Qed.

(** X2. [make_request] called with [params] or [headers] that is not a
    dict ([None], a string, a list, a model instance) raises [TypeError]
    at the merge, before anything is logged or sent. *)
Theorem make_request_rejects_non_dict self method url kwargs w key v :
  key = "params" ∨ key = "headers" →
  kwargs !! key = Some v → (∀ d, v ≠ VDict d) →
  make_request transport self method url kwargs w = (w, Raise TypeError).
Proof.
  intros Hkey Hv Hnd. rewrite make_request_run.
  assert (make_request_kwargs self kwargs = Raise TypeError) as ->; [|done].
  unfold make_request_kwargs.
  assert (Hbad : as_or_operand v = Raise TypeError).
  { destruct v; try done. by destruct (Hnd d). }
  destruct Hkey as [-> | ->].
  - unfold dict_get at 1. rewrite Hv. cbn. by rewrite Hbad.
  - destruct (as_or_operand (dict_get "params" (VDict ∅) kwargs)) as [cp|e] eqn:E.
    + cbn. unfold dict_get. rewrite lookup_insert_ne by done. rewrite Hv. cbn.
      by rewrite Hbad.
    + cbn. f_equal. unfold dict_get in E.
      destruct (kwargs !! "params") as [[]|]; cbn in E; congruence.
Qed.

(** X3. The [proxies] of a request are those the caller passed; when the
    caller passed none they are the client's if the settings name a
    proxy, and otherwise there are none. *)
Theorem make_request_proxies self method url kwargs w req :
  request_keywords kwargs →
  req ∈ sent (make_request transport self method url kwargs w).1 →
  req ∈ sent w ∨
  req_kwargs req !! "proxies" =
    match kwargs !! "proxies" with
    | Some v => Some v
    | None => if proxy_set (Client.settings self)
              then Some (VDict (Client.proxies self)) else None
    end.
Proof.
  intros _ [?|(kw & Hkw & ->)]%make_request_sent; [by left|right].
  cbn [req_kwargs]. by rewrite (make_request_kwargs_lookup _ _ _ "proxies" Hkw).
Qed.

(** X4. [make_request] never retries: either the merge raises and the
    world is as before, or exactly one request goes out, with the method
    and the URL of the call, and the call ends as the transport does, in
    its response or in its exception; the log gains the line of the
    request and, when there is a response, the line of its status. *)
Theorem make_request_once self method url kwargs w :
  request_keywords kwargs →
  (∃ e, make_request_kwargs self kwargs = Raise e ∧
        make_request transport self method url kwargs w = (w, Raise e)) ∨
  (∃ kw,
     make_request_kwargs self kwargs = Ok kw ∧
     let req := Request method url kw in
     let answer := transport (length (sent w)) req in
     let w' := (make_request transport self method url kwargs w).1 in
     (make_request transport self method url kwargs w).2 = answer ∧
     sent w' = (sent w ++ [req])%list ∧
     log w' = (log w ++ MakingRequest method url ::
                 match answer with
                 | Ok resp => [ResponseFor (Response.status_code resp) method (Response.url resp)]
                 | Raise _ => []
                 end)%list).
Proof.
  intros _. rewrite make_request_run.
  destruct (make_request_kwargs self kwargs) as [kw|e]; [right|left; eauto].
  exists kw. split; [done|]. cbv zeta.
  by destruct (transport _ _).
Qed.

(** X5. Every other keyword argument of [make_request] (a body, a
    timeout) reaches [requests.request] as the caller passed it, and so
    do the method and the URL. *)
Theorem make_request_passes_options self method url kwargs w req k :
  request_keywords kwargs →
  k ≠ "params" → k ≠ "headers" → k ≠ "proxies" → k ≠ "verify" →
  req ∈ sent (make_request transport self method url kwargs w).1 →
  req ∈ sent w ∨
  (req_method req = method ∧ req_url req = url ∧ req_kwargs req !! k = kwargs !! k).
Proof.
  intros _ ? ? ? ? [?|(kw & Hkw & ->)]%make_request_sent; [by left|right].
  repeat split. cbn [req_kwargs]. rewrite (make_request_kwargs_lookup _ _ _ k Hkw).
  by rewrite !decide_False by done.
Qed.

(** X6. Every request of a client made by [__init__] carries the
    client's credentials: the [Authorization], [User-Agent] and
    [x-datadome-clientid] headers and the [client_id], [app_version] and
    [app_locale] query parameters of the settings, whatever the caller
    passes. *)
Theorem make_request_authenticated st user_agent method url kwargs w req :
  request_keywords kwargs →
  req ∈ sent (make_request transport (Client_init st user_agent) method url kwargs w).1 →
  req ∈ sent w ∨
  ∃ p h,
    req_kwargs req !! "params" = Some (VDict p) ∧
    req_kwargs req !! "headers" = Some (VDict h) ∧
    h !! "Authorization" = Some (VStr ("OAuth " +:+ oauth_token st)) ∧
    h !! "User-Agent" = Some (VStr user_agent) ∧
    h !! "x-datadome-clientid" = Some (VStr (datadome_clientid st)) ∧
    p !! "client_id" = Some (VStr (client_id st)) ∧
    p !! "app_version" = Some (VStr "1739181955") ∧
    p !! "app_locale" = Some (VStr "en").
Proof.
  intros _ [?|(kw & Hkw & ->)]%make_request_sent; [by left|right].
  eexists _, _. cbn [req_kwargs].
  split; [by rewrite (make_request_kwargs_lookup _ _ _ "params" Hkw)|].
  split; [by rewrite (make_request_kwargs_lookup _ _ _ "headers" Hkw)|].
  unfold dict_or.
  repeat split; apply lookup_union_Some_l; cbn [Client_init Client.headers Client.params].
  - by rewrite lookup_insert_eq.
  - rewrite lookup_insert_ne by done. by rewrite lookup_insert_eq.
  - rewrite !lookup_insert_ne by done. by rewrite lookup_singleton_eq.
  - by rewrite lookup_insert_eq.
  - rewrite lookup_insert_ne by done. by rewrite lookup_insert_eq.
  - rewrite !lookup_insert_ne by done. by rewrite lookup_singleton_eq.
Qed.

End MakeRequest.

(** ** More on routed calls *)

Ltac split_inv H :=
  repeat match type of H with
  | outcome_bind ?m _ = Ok _ =>
      let E := fresh "E" in
      destruct m eqn:E; [cbn [outcome_bind] in H | discriminate H]
  end.

(** The transport options of a successful split: the [kwargs] argument,
    over which the options returned by the endpoint function are laid. *)
Lemma from_route_kwargs client ep path kwargs sp :
  from_route client ep path kwargs = Ok sp →
  ∃ returned options,
    endpoint_call ep kwargs = Ok returned ∧
    dict_get "kwargs" (VDict ∅) (dict_or (get_default_kwargs ep) kwargs) = VDict options ∧
    SplitParams.kwargs sp =
      dict_update options
        (update_entries (dict_get "kwargs" (VDict ∅) (default ∅ returned))).
Proof.
  unfold from_route, dict_pop. intros H.
  split_inv H.
  apply compile_path_Ok in E0 as [Hnd ->].
  cbv beta iota zeta in H.
  split_inv H.
  apply as_update_argument_Ok in E2 as ->.
  injection H as <-. exists a. cbn [SplitParams.kwargs].
  unfold as_update_receiver in E1.
  destruct (default (VDict ∅) (dict_or (get_default_kwargs ep) kwargs !! "kwargs"))
    as [| | | | |options|] eqn:Hopt; try discriminate.
  injection E1 as <-. exists options. by repeat split.
Qed.

Section RoutedCall.
Variable py_repr : value → string.
Variable transport : nat → request → outcome Response.t.
Context {R : Type} (rt : Route.t R) (self : Client.t) (kwargs : pydict).

(** The request of a routed call whose parameters were split. *)
Lemma caller_request w sp req :
  from_route self (Route.endpoint rt) (Route.path rt) kwargs = Ok sp →
  req ∈ sent (caller py_repr transport rt self kwargs w).1 →
  req ∈ sent w ∨
  ∃ url kw,
    make_url py_repr self (Route.path rt) (SplitParams.path_params sp) = Ok url ∧
    make_request_arguments sp (VDict (SplitParams.query_params sp)) = Ok kw ∧
    make_request_kwargs self kw = Ok (req_kwargs req) ∧
    req_method req = Route.method rt ∧ req_url req = url.
Proof.
  intros Hsp Hreq.
  destruct (make_url py_repr self (Route.path rt) (SplitParams.path_params sp))
    as [url|e] eqn:Hurl.
  - destruct (caller_sent py_repr transport rt self kwargs w sp url req Hsp Hurl Hreq)
      as [?|(? & ? & kw & ? & ?)]; [by left|right].
    by exists url, kw.
  - rewrite (caller_make_url_raises py_repr transport rt self kwargs w sp e Hsp Hurl) in Hreq.
    by left.
Qed.

(** X7. When the response to a routed call has a body that parses, a
    route without response model returns the parsed body as it is, and a
    route with a response model returns what the validator makes of it. *)
Theorem caller_returns_body w sp url kw w2 resp response_data :
  route_keywords kwargs →
  from_route self (Route.endpoint rt) (Route.path rt) kwargs = Ok sp →
  make_url py_repr self (Route.path rt) (SplitParams.path_params sp) = Ok url →
  make_request_arguments sp (json_dump (VDict (SplitParams.query_params sp))) = Ok kw →
  make_request transport self (Route.method rt) url kw
    (World (log w ++ [MakingRequestTo url]) (sent w)) = (w2, Ok resp) →
  Response.json resp = Some response_data →
  (Route.response_model rt = None →
   caller py_repr transport rt self kwargs w = (w2, Ok (Parsed response_data))) ∧
  (∀ validate_python r,
     Route.response_model rt = Some validate_python →
     validate_python response_data = Some r →
     caller py_repr transport rt self kwargs w = (w2, Ok (Validated r))).
Proof.
  intros _ H1 H2 H3 H4 H5.
  rewrite (caller_run py_repr transport rt self kwargs w sp url kw H1 H2 H3), H4, H5.
  split.
  - by intros ->.
  - intros v r -> Hr. by rewrite Hr.
Qed.

(** X8. The query parameters of the split reach the request: its query
    has the keys of the split and the keys of the client, and under a key
    that the client does not define it holds the value of the split. *)
Theorem caller_query_reaches_request w sp req :
  route_keywords kwargs →
  from_route self (Route.endpoint rt) (Route.path rt) kwargs = Ok sp →
  req ∈ sent (caller py_repr transport rt self kwargs w).1 →
  req ∈ sent w ∨
  ∃ p,
    req_kwargs req !! "params" = Some (VDict p) ∧
    dom p = dom (SplitParams.query_params sp) ∪ dom (Client.params self) ∧
    ∀ k, Client.params self !! k = None → p !! k = SplitParams.query_params sp !! k.
Proof.
  intros _ Hsp [?|(url & kw & _ & Hargs & Hkw & _)]%(caller_request w sp);
    [by left|right|done].
  apply make_request_arguments_Ok in Hargs as [_ Hparams].
  eexists. split.
  - rewrite (make_request_kwargs_lookup _ _ _ "params" Hkw). cbn.
    unfold dict_get. by rewrite Hparams.
  - cbn. unfold dict_or. rewrite dom_union_L. split; [apply (comm_L (∪))|].
    intros k Hk. by rewrite lookup_union_r.
Qed.

(** X9. Transport options that repeat an argument [caller] already
    gives to [make_request] ([data], [params], or the method, the URL or
    [self]) make the routed call raise [TypeError] after the URL was
    made and logged, and no request is sent. *)
Theorem caller_rejects_repeated_keyword w sp url options k :
  route_keywords kwargs →
  from_route self (Route.endpoint rt) (Route.path rt) kwargs = Ok sp →
  make_url py_repr self (Route.path rt) (SplitParams.path_params sp) = Ok url →
  kwargs !! "kwargs" = Some (VDict options) →
  k ∈ ["self"; "method"; "url"; "data"; "params"] →
  is_Some (options !! k) →
  caller py_repr transport rt self kwargs w
    = (World (log w ++ [MakingRequestTo url]) (sent w), Raise TypeError).
Proof.
  intros _ Hsp Hurl Hkw Hk [v Hv].
  apply (caller_arguments_raise py_repr transport rt self kwargs w sp url); [done..|].
  destruct (from_route_kwargs _ _ _ _ _ Hsp) as (returned & options' & _ & Hopt & Hkwargs).
  unfold dict_get in Hopt. rewrite dict_or_lookup, Hkw in Hopt. cbn in Hopt.
  injection Hopt as <-.
  unfold make_request_arguments, bind_keywords.
  rewrite bool_decide_eq_false_2; [done|].
  intros Hall. rewrite Forall_forall in Hall.
  specialize (Hall k Hk). rewrite Hkwargs, dict_update_lookup, Hv in Hall.
  by destruct (update_entries _ !! k).
Qed.

(** X10. For an endpoint function that accepts a [kwargs] argument and
    returns nothing, the transport options in [kwargs] reach the request:
    [verify] as passed, so that a routed call can turn certificate
    verification on, and every option that is neither the body, the query
    nor one the client merges, unchanged. *)
Theorem caller_passes_transport_options w sp options req :
  route_keywords kwargs →
  from_route self (Route.endpoint rt) (Route.path rt) kwargs = Ok sp →
  endpoint_call (Route.endpoint rt) kwargs = Ok None →
  kwargs !! "kwargs" = Some (VDict options) →
  req ∈ sent (caller py_repr transport rt self kwargs w).1 →
  req ∈ sent w ∨
  (req_kwargs req !! "verify" = Some (default (VBool false) (options !! "verify")) ∧
   ∀ k, k ∉ ["data"; "params"; "headers"; "proxies"; "verify"] →
        req_kwargs req !! k = options !! k).
Proof.
  intros _ Hsp Hcall Hkw [?|(url & kw & _ & Hargs & Hreq & _)]%(caller_request w sp);
    [by left|right|done].
  destruct (from_route_kwargs _ _ _ _ _ Hsp) as (returned & options' & Hcall' & Hopt & Hkwargs).
  rewrite Hcall in Hcall'. injection Hcall' as <-.
  unfold dict_get in Hopt. rewrite dict_or_lookup, Hkw in Hopt. cbn in Hopt.
  injection Hopt as <-.
  assert (Hsame : SplitParams.kwargs sp = options).
  { rewrite Hkwargs. cbn. unfold dict_get. rewrite lookup_empty. cbn.
    unfold dict_update. apply (left_id_L ∅ (∪)). }
  assert (Hlook : ∀ k, k ≠ "data" → k ≠ "params" → kw !! k = options !! k).
  { intros k ? ?. revert Hargs. unfold make_request_arguments, bind_keywords.
    case_bool_decide; [|done]. intros [= <-].
    rewrite lookup_union_r; [by rewrite Hsame|].
    cbn. by rewrite !lookup_insert_ne, lookup_empty. }
  split.
  - rewrite (make_request_kwargs_lookup _ _ _ "verify" Hreq). cbn.
    by rewrite Hlook.
  - intros k Hk. rewrite (make_request_kwargs_lookup _ _ _ k Hreq).
    rewrite !decide_False by (intros ->; apply Hk; repeat constructor).
    apply Hlook; intros ->; apply Hk; repeat constructor.
Qed.

(** X11. When the endpoint function does not annotate [data], no body is
    sent: every request of the call has [data=None], whatever payload the
    caller passed. *)
Theorem caller_sends_no_unannotated_body w sp req :
  route_keywords kwargs →
  data_annotation (Route.endpoint rt) = None →
  from_route self (Route.endpoint rt) (Route.path rt) kwargs = Ok sp →
  req ∈ sent (caller py_repr transport rt self kwargs w).1 →
  req ∈ sent w ∨ req_kwargs req !! "data" = Some VNone.
Proof.
  intros _ Hann Hsp [?|(url & kw & _ & Hargs & Hreq & _)]%(caller_request w sp);
    [by left|right|done].
  destruct (from_route_Ok _ _ _ _ _ Hsp) as (returned & _ & _ & _ & _ & _ & Hcontent).
  rewrite (make_request_kwargs_lookup _ _ _ "data" Hreq). cbn.
  apply make_request_arguments_Ok in Hargs as [-> _].
  by rewrite Hcontent by (by right).
Qed.

End RoutedCall.

(** X12. A [params] argument that is a dict is moved into the query: for
    an endpoint function that returns nothing and a path without
    placeholder [params], the query parameters are the entries of the
    dict, and under the keys it does not have the arguments that no
    placeholder names; [params] itself is a query parameter only if the
    dict has that key. *)
Theorem from_route_flattens_params client endpoint path kwargs sp (passed : pydict) :
  route_keywords kwargs →
  from_route client endpoint path kwargs = Ok sp →
  endpoint_call endpoint kwargs = Ok None →
  kwargs !! "params" = Some (VDict passed) →
  "params" ∉ field_names path →
  ∀ k, SplitParams.query_params sp !! k =
       match passed !! k with
       | Some v => Some v
       | None =>
           if decide (k = "params" ∨ k ∈ field_names path) then None
           else plain_arguments endpoint kwargs !! k
       end.
Proof.
  intros _ Hsp Hcall Hparams Hfield k.
  destruct (from_route_Ok _ _ _ _ _ Hsp) as (returned & Hcall' & _ & Hquery & _).
  rewrite Hcall in Hcall'. injection Hcall' as <-.
  cbv zeta in Hquery. cbn [default] in Hquery.
  assert (Hq : update_entries (dict_get "query" (VDict ∅) (delete "kwargs" (∅ : pydict))) = ∅).
  { unfold dict_get. by rewrite lookup_delete_ne, lookup_empty. }
  rewrite Hq in Hquery. unfold dict_update at 2 3 in Hquery.
  rewrite !(left_id_L ∅ (∪)) in Hquery.
  assert (Hp : dict_get "params" (VDict ∅)
                 (drop_keys (list_to_set (field_names path)) (plain_arguments endpoint kwargs))
               = VDict passed).
  { unfold dict_get. rewrite drop_keys_lookup.
    rewrite decide_False by (by rewrite elem_of_list_to_set).
    rewrite plain_arguments_lookup, decide_False by (intros [?|?]; done).
    by rewrite Hparams. }
  rewrite Hp in Hquery. cbn [update_entries] in Hquery.
  rewrite Hquery, dict_update_lookup.
  destruct (passed !! k) as [v|]; [done|].
  rewrite lookup_delete, drop_keys_lookup.
  destruct (decide (k = "params")) as [->|Hk].
  { rewrite (decide_True (P := "params" = "params")) by done.
    by rewrite decide_True by (by left). }
  rewrite (decide_False (P := "params" = k)) by (by intros <-).
  destruct (decide (k ∈ field_names path)) as [Hf|Hf].
  - rewrite decide_True by (by apply elem_of_list_to_set).
    by rewrite decide_True by (by right).
  - rewrite decide_False by (by rewrite elem_of_list_to_set).
    by rewrite decide_False by (intros [?|?]; done).
Qed.

(** X13. For an endpoint function that returns nothing, called without
    [params], the split is a partition: path and query parameters share
    no key, together they are the caller's arguments over the declared
    defaults without [kwargs] and [data], every path parameter is named
    by a placeholder, and neither [data] nor [kwargs] is among them. *)
Theorem from_route_splits_in_two client endpoint path kwargs sp :
  route_keywords kwargs →
  from_route client endpoint path kwargs = Ok sp →
  endpoint_call endpoint kwargs = Ok None →
  plain_arguments endpoint kwargs !! "params" = None →
  SplitParams.path_params sp ##ₘ SplitParams.query_params sp ∧
  SplitParams.path_params sp ∪ SplitParams.query_params sp = plain_arguments endpoint kwargs ∧
  dom (SplitParams.path_params sp) ⊆ list_to_set (field_names path) ∧
  SplitParams.path_params sp !! "data" = None ∧
  SplitParams.path_params sp !! "kwargs" = None ∧
  SplitParams.query_params sp !! "data" = None ∧
  SplitParams.query_params sp !! "kwargs" = None.
Proof.
  intros _ Hsp Hcall Hparams.
  destruct (from_route_Ok _ _ _ _ _ Hsp) as (returned & Hcall' & Hpath & Hquery & _).
  rewrite Hcall in Hcall'. injection Hcall' as <-.
  cbv zeta in Hquery. cbn [default] in Hquery.
  assert (Hq : update_entries (dict_get "query" (VDict ∅) (delete "kwargs" (∅ : pydict))) = ∅).
  { unfold dict_get. by rewrite lookup_delete_ne, lookup_empty. }
  rewrite Hq in Hquery. unfold dict_update at 2 3 in Hquery.
  rewrite !(left_id_L ∅ (∪)) in Hquery.
  assert (Hp : drop_keys (list_to_set (field_names path))
                 (plain_arguments endpoint kwargs) !! "params" = None).
  { rewrite drop_keys_lookup. by case_decide. }
  unfold dict_get in Hquery. rewrite Hp in Hquery. cbn in Hquery.
  unfold dict_update in Hquery. rewrite (left_id_L ∅ (∪)), delete_id in Hquery by done.
  assert (Hpl : ∀ k, SplitParams.path_params sp !! k =
                     if decide (k ∈ (list_to_set (field_names path) : gset string))
                     then plain_arguments endpoint kwargs !! k else None).
  { intros k. by rewrite Hpath, keep_keys_lookup. }
  assert (Hql : ∀ k, SplitParams.query_params sp !! k =
                     if decide (k ∈ (list_to_set (field_names path) : gset string))
                     then None else plain_arguments endpoint kwargs !! k).
  { intros k. by rewrite Hquery, drop_keys_lookup. }
  split; [|split; [|split; [|split; [|split; [|split]]]]].
  - apply map_disjoint_spec. intros k x y Hx Hy.
    rewrite Hpl in Hx. rewrite Hql in Hy. by case_decide.
  - apply map_eq. intros k. rewrite lookup_union, Hpl, Hql.
    case_decide; by destruct (plain_arguments endpoint kwargs !! k).
  - intros k [v Hv]%elem_of_dom. rewrite Hpl in Hv. by case_decide.
  - rewrite Hpl, plain_arguments_lookup. by case_decide.
  - rewrite Hpl, plain_arguments_lookup. by case_decide.
  - rewrite Hql, plain_arguments_lookup. by case_decide.
  - rewrite Hql, plain_arguments_lookup. by case_decide.
Qed.

(** ** The declared endpoints *)

Lemma declared_endpoints_well_declared sc_a_id :
  Forall (λ nd, well_declared nd.2) (declared_endpoints sc_a_id).
Proof. apply (bool_decide_unpack _). vm_compute. exact I. Qed.

Lemma declaration_parameters_dom d :
  list_to_set (decl_required d) ∪ dom (list_to_map (decl_defaults d) : pydict)
  = (list_to_set (decl_parameters d) : gset string).
Proof.
  unfold decl_parameters. by rewrite list_to_set_app_L, dom_list_to_map_L.
Qed.

Lemma declaration_call_fits dump_json d kwargs :
  list_to_set (decl_required d) ⊆ dom kwargs →
  dom kwargs ⊆ list_to_set (decl_parameters d) →
  endpoint_call (declaration_endpoint dump_json d) kwargs = Ok None.
Proof.
  intros Hreq Hknown. cbn. rewrite declaration_parameters_dom.
  by rewrite bool_decide_eq_true_2.
Qed.

Lemma declaration_call_misfits dump_json d kwargs :
  ¬ (list_to_set (decl_required d) ⊆ dom kwargs ∧
     dom kwargs ⊆ list_to_set (decl_parameters d)) →
  endpoint_call (declaration_endpoint dump_json d) kwargs = Raise TypeError.
Proof.
  intros Hno. cbn. rewrite declaration_parameters_dom.
  by rewrite bool_decide_eq_false_2.
Qed.

Lemma from_route_call_raises client ep path kwargs e :
  endpoint_call ep kwargs = Raise e → from_route client ep path kwargs = Raise e.
Proof. intros H. unfold from_route. by rewrite H. Qed.

Lemma from_route_declared client d dump_json kwargs :
  well_declared d →
  list_to_set (decl_required d) ⊆ dom kwargs →
  dom kwargs ⊆ list_to_set (decl_parameters d) →
  (∀ v, kwargs !! "data" = Some v → truthy v = true → decl_data d = true →
        ∃ c, dump_json v = Ok c) →
  ∃ sp, from_route client (declaration_endpoint dump_json d) (decl_path d) kwargs = Ok sp ∧
        SplitParams.kwargs sp = ∅.
Proof.
  intros (Hnd & Hfields & Hkw & Hpar & Hdf & Hdd & Hdata) Hreq Hknown Hdump.
  assert (Hnot : ∀ k, k ∉ decl_parameters d →
    dict_or (get_default_kwargs (declaration_endpoint dump_json d)) kwargs !! k = None).
  { intros k Hk. rewrite dict_or_lookup.
    assert (kwargs !! k = None) as ->.
    { apply not_elem_of_dom. intros Hin. apply Hknown in Hin.
      by apply elem_of_list_to_set in Hin. }
    cbn. apply not_elem_of_list_to_map_1. intros Hin. apply Hk.
    unfold decl_parameters. apply elem_of_app. by right. }
  unfold from_route, dict_pop.
  rewrite (declaration_call_fits dump_json d kwargs Hreq Hknown). cbn [outcome_bind].
  unfold compile_path. rewrite bool_decide_eq_true_2 by done. cbn [outcome_bind].
  cbv beta iota zeta.
  rewrite (Hnot "kwargs" Hkw). cbn [default from_option id as_update_receiver outcome_bind].
  rewrite lookup_empty. cbn [default from_option id as_update_argument outcome_bind].
  assert (Hq : dict_get "query" (VDict ∅) (delete "kwargs" (∅ : pydict)) = VDict ∅).
  { unfold dict_get. by rewrite lookup_delete_ne, lookup_empty. }
  assert (Hd : dict_get "data" VNone (delete "kwargs" (∅ : pydict)) = VNone).
  { unfold dict_get. by rewrite lookup_delete_ne, lookup_empty. }
  rewrite Hq, Hd. clear Hq Hd.
  set (payload := py_or_else _ VNone).
  assert (Hcontent : ∃ content,
    (if truthy payload
     then match data_annotation (declaration_endpoint dump_json d) with
          | Some dump => (c <- dump payload ;; Ok (Some c))%out
          | None => Ok None
          end
     else Ok None) = Ok content).
  { subst payload. rewrite lookup_delete_ne by done. rewrite dict_or_lookup.
    destruct (kwargs !! "data") as [v|] eqn:Hv.
    - cbn [default from_option id]. unfold py_or_else.
      destruct (truthy v) eqn:Ht; [|by exists None].
      rewrite Ht. cbn [data_annotation declaration_endpoint stub].
      destruct (decl_data d) eqn:Hdata'; [|by exists None].
      destruct (Hdump v eq_refl Ht eq_refl) as [c ->]. by exists (Some c).
    - cbn [get_default_kwargs declaration_endpoint stub].
      rewrite (not_elem_of_list_to_map_1 _ _ Hdd). by exists None. }
  destruct Hcontent as [content ->]. cbn [outcome_bind as_update_argument].
  assert (Hp : dict_update
                 (drop_keys (list_to_set (field_names (decl_path d)))
                    (delete "data" (delete "kwargs"
                       (dict_or (get_default_kwargs (declaration_endpoint dump_json d)) kwargs))))
                 ∅ !! "params" = None).
  { rewrite dict_update_lookup, lookup_empty, drop_keys_lookup.
    case_decide; [done|]. rewrite !lookup_delete_ne by done. by apply Hnot. }
  rewrite Hp. cbn [default from_option id as_update_argument outcome_bind].
  eexists. split; [reflexivity|]. cbn [SplitParams.kwargs]. unfold dict_update.
  apply (left_id_L (∅ : pydict) (∪)).
Qed.

Section Declared.
Variable py_repr : value → string.
Variable transport : nat → request → outcome Response.t.
Context {R : Type}.
Implicit Types (d : declaration) (response_model : option (value → option R)).

(** X14. No endpoint the client declares takes transport options or a
    [params] dict, and only the two that annotate [data] take a body:
    calling one with [kwargs], with [params], or with [data] where it is
    not a parameter, raises [TypeError] when the endpoint function is
    called, before anything is logged or sent. *)
Theorem declared_endpoint_takes_no_options sc_a_id name d dump_json response_model
    self kwargs w k :
  (name, d) ∈ declared_endpoints sc_a_id →
  k = "kwargs" ∨ k = "params" ∨ (k = "data" ∧ decl_data d = false) →
  is_Some (kwargs !! k) →
  caller py_repr transport (declaration_route d dump_json response_model) self kwargs w
    = (w, Raise TypeError).
Proof.
  intros Hd Hk Hin.
  pose proof (declared_endpoints_well_declared sc_a_id) as Hall.
  rewrite Forall_forall in Hall. specialize (Hall _ Hd).
  destruct Hall as (_ & _ & Hkw & Hpar & _ & _ & Hdata).
  apply caller_from_route_raises. apply from_route_call_raises.
  apply declaration_call_misfits. intros [_ Hknown].
  assert (k ∉ decl_parameters d) as Hno.
  { destruct Hk as [->|[->|[-> Hf]]]; auto. }
  apply Hno. apply elem_of_dom in Hin. apply Hknown in Hin.
  by apply elem_of_list_to_set in Hin.
Qed.

(** X15. Every placeholder of a declared path is a parameter without
    default of its function: a call that fits the signature, and whose
    payload, if any, the schema serializes, never fails on the URL. It
    sends exactly one request, with the declared method, to the base URL,
    a slash and the path with each placeholder replaced by the text of
    the caller's value. *)
Theorem declared_endpoint_reaches_network sc_a_id name d dump_json response_model
    self kwargs :
  (name, d) ∈ declared_endpoints sc_a_id →
  list_to_set (decl_required d) ⊆ dom kwargs →
  dom kwargs ⊆ list_to_set (decl_parameters d) →
  (∀ v, kwargs !! "data" = Some v → truthy v = true → decl_data d = true →
        ∃ c, dump_json v = Ok c) →
  ∃ parts req,
    Forall2 (fills py_repr kwargs) (decl_path d) parts ∧
    req_method req = decl_method d ∧
    req_url req = Client.base_url self +:+ "/" +:+ str_concat parts ∧
    ∀ w, sent (caller py_repr transport (declaration_route d dump_json response_model)
                 self kwargs w).1 = (sent w ++ [req])%list.
Proof.
  intros Hd Hreq Hknown Hdump.
  pose proof (declared_endpoints_well_declared sc_a_id) as Hall.
  rewrite Forall_forall in Hall. specialize (Hall _ Hd). cbn in Hall.
  destruct (from_route_declared self d dump_json kwargs Hall Hreq Hknown Hdump)
    as (sp & Hsp & Hkwargs).
  destruct Hall as (Hnd & Hfields & Hkw & Hpar & Hdf & Hdd & Hdata).
  destruct (from_route_Ok _ _ _ _ _ Hsp) as (returned & _ & Hpath & _).
  assert (Hlook : ∀ k, k ∈ field_names (decl_path d) →
                       SplitParams.path_params sp !! k = kwargs !! k ∧ is_Some (kwargs !! k)).
  { intros k Hk.
    assert (is_Some (kwargs !! k)) as [v Hv].
    { apply elem_of_dom, Hreq, elem_of_list_to_set, Hfields, Hk. }
    split; [|by exists v].
    rewrite Hpath, keep_keys_lookup, plain_arguments_lookup.
    rewrite decide_True by (by apply elem_of_list_to_set).
    rewrite decide_False; [by rewrite Hv|].
    intros [->| ->]; [done|]. apply Hkw. unfold decl_parameters.
    apply elem_of_app. left. by apply Hfields. }
  destruct (str_format_Ok py_repr (decl_path d) (SplitParams.path_params sp))
    as (parts & Hparts & Hfmt).
  { intros k Hk. destruct (Hlook k Hk) as [-> ?]. done. }
  set (url := Client.base_url self +:+ "/" +:+ str_concat parts).
  assert (Hurl : make_url py_repr self (decl_path d) (SplitParams.path_params sp) = Ok url).
  { unfold make_url. by rewrite Hfmt. }
  set (kw := ({[ "data" := from_option VStr VNone (SplitParams.content sp);
                 "params" := VDict (SplitParams.query_params sp) ]} : pydict)).
  assert (Hargs : make_request_arguments sp (json_dump (VDict (SplitParams.query_params sp)))
                  = Ok kw).
  { unfold make_request_arguments, bind_keywords. rewrite Hkwargs.
    rewrite bool_decide_eq_true_2 by (apply Forall_forall; intros; apply lookup_empty).
    unfold json_dump. rewrite (right_id_L ∅ (∪)). reflexivity. }
  destruct (make_request_kwargs self kw) as [kw'|e] eqn:Hkw'.
  2:{ exfalso. revert Hkw'. unfold make_request_kwargs.
      replace (dict_get "params" (VDict ∅) kw) with (VDict (SplitParams.query_params sp)).
      2:{ unfold dict_get. subst kw. rewrite lookup_insert_ne by done.
          by rewrite lookup_singleton_eq. }
      cbn [as_or_operand outcome_bind].
      unfold dict_get at 1. rewrite lookup_insert_ne by done.
      replace (kw !! "headers") with (@None value).
      2:{ subst kw. rewrite lookup_insert_ne by done. by rewrite lookup_singleton_ne. }
      done. }
  exists parts, (Request (decl_method d) url kw').
  split; [by apply (fills_agree py_repr (SplitParams.path_params sp));
            [intros k Hk; apply (Hlook k Hk)|]|].
  split; [done|]. split; [done|]. intros w.
  rewrite (caller_run py_repr transport (declaration_route d dump_json response_model)
             self kwargs w sp url kw Hsp Hurl Hargs).
  rewrite make_request_run, Hkw'.
  cbn [sent Route.method Route.response_model declaration_route].
  destruct (transport _ _) as [resp|e]; [|reflexivity].
  destruct (Response.json resp) as [data|]; [|reflexivity].
  destruct response_model as [v|]; [|reflexivity].
  destruct (v data); reflexivity.
Qed.

End Declared.

(** ** More on next-page URLs *)

Ltac str_step :=
  repeat match goal with
         | |- context [String ?x ?s +:+ ?t] =>
             change (String x s +:+ t) with (String x (s +:+ t))
         | |- context [EmptyString +:+ ?t] =>
             change (EmptyString +:+ t) with t
         end;
  simpl.







(** ** The ids of a batch *)

Lemma split_on_nonempty c s : split_on c s ≠ [].
Proof.
  destruct s as [|x s]; simpl; [done|].
  destruct (Ascii.eqb x c); [done|]. by destruct (split_on c s).
Qed.

Lemma split_on_snoc c s q :
  ¬ occurs c q → split_on c (s +:+ String c q) = (split_on c s ++ [q])%list.
Proof.
  intros Hq. induction s as [|x s IH]; str_step.
  - by rewrite Ascii.eqb_refl, split_on_id.
  - destruct (Ascii.eqb x c); [by rewrite IH|].
    rewrite IH. pose proof (split_on_nonempty c s) as Hne.
    destruct (split_on c s) as [|p ps]; [by destruct Hne|reflexivity].
Qed.

Lemma pretty_N_go_no_comma x s : ¬ occurs "," s → ¬ occurs "," (pretty_N_go x s).
Proof.
  revert s. induction (N.lt_wf_0 x) as [x _ IH]; intros s Hs.
  assert (x = 0 ∨ 0 < x)%N as [->|?] by lia.
  - by rewrite pretty_N_go_0.
  - rewrite pretty_N_go_step by done. apply IH.
    { by apply N.div_lt. }
    simpl. intros [Hc|?]; [|done]. revert Hc.
    unfold pretty_N_char. by repeat case_match.
Qed.

Lemma pretty_Z_no_comma (z : Z) : ¬ occurs "," (pretty z).
Proof.
  assert (HN : ∀ n : N, ¬ occurs "," (pretty n)).
  { intros n. unfold pretty, pretty_N. case_decide.
    - simpl. intros [?|?]; done.
    - apply pretty_N_go_no_comma. simpl. tauto. }
  destruct z as [|p|p]; unfold pretty, pretty_Z.
  - simpl. intros [?|?]; done.
  - apply HN.
  - rewrite occurs_app. simpl. intros [[?|?]|?]; [done|done|]. by apply (HN (Npos p)).
Qed.

Lemma split_on_join_go acc (parts : list string) :
  Forall (λ p, ¬ occurs "," p) parts →
  split_on "," (foldl (λ acc q, acc +:+ "," +:+ q) acc parts)
  = (split_on "," acc ++ parts)%list.
Proof.
  revert acc. induction parts as [|p parts IH]; intros acc Hall.
  - by rewrite app_nil_r.
  - apply Forall_cons in Hall as [Hp Hall]. cbn [foldl].
    rewrite IH by done.
    change (acc +:+ "," +:+ p) with (acc +:+ String "," p).
    rewrite split_on_snoc by done. by rewrite <- app_assoc.
Qed.

(** X18. [prepare_track_ids] can be read back: splitting the text at the
    commas gives the decimal numerals of the ids, in order, for every list
    of ids that is not empty. *)
Theorem prepare_track_ids_round_trip ids :
  ids ≠ [] → split_on "," (prepare_track_ids ids) = pretty <$> ids.
Proof.
  intros Hne. destruct ids as [|z ids]; [done|].
  unfold prepare_track_ids, str_join. cbn [fmap list_fmap].
  rewrite split_on_join_go.
  - rewrite split_on_id by apply pretty_Z_no_comma. done.
  - apply Forall_fmap, Forall_forall. intros z' _. apply pretty_Z_no_comma.
Qed.

(** ** Failing lookups *)

Section TracksFailures.
Variable py_repr : value → string.
Variable transport : nat → request → outcome Response.t.
Variable Track : Type.
Variable validate_tracks : value → option (list Track).

Lemma collect_tracks_prefix self (answer : list Z → list Track) pre :
  ∀ w,
  (∀ j c, pre !! j = Some c → answered transport validate_tracks self (length (sent w) + j) c (answer c)) →
  ∃ w1,
    sent w1 = (sent w ++ (tracks_request self <$> pre))%list ∧
    ∀ rest,
      collect_tracks py_repr transport Track validate_tracks self (pre ++ rest) w =
      match collect_tracks py_repr transport Track validate_tracks self rest w1 with
      | (w2, Ok tracks) => (w2, Ok (concat (answer <$> pre) ++ tracks)%list)
      | (w2, Raise e) => (w2, Raise e)
      end.
Proof.
  induction pre as [|c pre IH]; intros w Hall.
  - exists w. split; [by rewrite app_nil_r|]. intros rest. cbn.
    by destruct (collect_tracks _ _ _ _ _ rest w) as [w2 [tracks|e]].
  - destruct (Hall 0%nat c eq_refl) as (resp & d & Ht & Hd & Hv).
    rewrite Nat.add_0_r in Ht.
    set (w0 := World (log w ++ [MakingRequestTo (tracks_url self);
                                MakingRequest "GET" (tracks_url self);
                                ResponseFor (Response.status_code resp) "GET"
                                  (Response.url resp)])
                     (sent w ++ [tracks_request self c])).
    destruct (IH w0) as (w1 & Hsent & Hrun).
    { intros j c' Hj. cbn [sent w0]. rewrite length_app. cbn [length].
      replace (length (sent w) + 1 + j)%nat with (length (sent w) + S j)%nat by lia.
      by apply Hall. }
    exists w1. split.
    { rewrite Hsent. cbn [sent w0 fmap list_fmap]. by rewrite <- app_assoc. }
    intros rest. cbn [app collect_tracks]. unfold bind at 1.
    rewrite get_tracks_run. cbv zeta. rewrite Ht, Hd, Hv.
    unfold bind at 1, lift at 1. cbn [iterate_tracks].
    fold w0. unfold bind at 1. rewrite Hrun.
    destruct (collect_tracks _ _ _ _ _ rest w1) as [w2 [tracks|e]]; [|done].
    unfold ret. cbn [fmap list_fmap concat]. by rewrite <- app_assoc.
Qed.

Lemma collect_tracks_stops self (answer : list Z → list Track) pre c post w e w2 :
  (∀ j c', pre !! j = Some c' → answered transport validate_tracks self (length (sent w) + j) c' (answer c')) →
  (∀ w1, length (sent w1) = (length (sent w) + length pre)%nat →
         ∃ r, get_tracks py_repr transport Track validate_tracks self
                {[ "ids" := VStr (prepare_track_ids c) ]} w1 = (w2 w1, r) ∧
              (r = Raise e ∨ ∃ reply, r = Ok reply ∧ iterate_tracks Track reply = Raise e)) →
  ∃ w1,
    sent w1 = (sent w ++ (tracks_request self <$> pre))%list ∧
    collect_tracks py_repr transport Track validate_tracks self (pre ++ c :: post) w
    = (w2 w1, Raise e).
Proof.
  intros Hpre Hfail.
  destruct (collect_tracks_prefix self answer pre w Hpre) as (w1 & Hsent & Hrun).
  exists w1. split; [done|]. rewrite Hrun. cbn [collect_tracks].
  destruct (Hfail w1) as (r & Hget & Hr).
  { by rewrite Hsent, length_app, length_fmap. }
  unfold bind at 1. rewrite Hget.
  destruct Hr as [->|(reply & -> & Hiter)]; [done|].
  unfold bind at 1, lift at 1. by rewrite Hiter.
Qed.

(** X19. When the batches before batch [c] are answered and the answer to
    [c] has a body that does not parse, [get_all_tracks] raises
    [TypeError] (the routed call returned [None], which the comprehension
    iterates): the tracks of the earlier batches are lost, the failure is
    the last line of the log, and no later batch is requested. *)
Theorem get_all_tracks_soft_failure self track_ids chunk_size
    (answer : list Z → list Track) w pre c post resp :
  chunk_list track_ids chunk_size = (pre ++ c :: post)%list →
  (∀ j c', pre !! j = Some c' → answered transport validate_tracks self (length (sent w) + j) c' (answer c')) →
  transport (length (sent w) + length pre) (tracks_request self c) = Ok resp →
  Response.json resp = None →
  ∃ w',
    get_all_tracks py_repr transport Track validate_tracks self track_ids chunk_size w
      = (w', Raise TypeError) ∧
    sent w' = (sent w ++ (tracks_request self <$> pre ++ [c]))%list ∧
    last (log w') = Some (FailedToDecode (Response.status_code resp) (Response.content resp)).
Proof.
  intros Hchunks Hpre Ht Hjson. unfold get_all_tracks. rewrite Hchunks.
  destruct (collect_tracks_stops self answer pre c post w TypeError
    (λ w1, World (log w1 ++ [MakingRequestTo (tracks_url self);
                             MakingRequest "GET" (tracks_url self);
                             ResponseFor (Response.status_code resp) "GET" (Response.url resp);
                             FailedToDecode (Response.status_code resp) (Response.content resp)])
                 (sent w1 ++ [tracks_request self c])) Hpre) as (w1 & Hsent & Hrun).
  { intros w1 Hlen. rewrite get_tracks_run. cbv zeta. rewrite Hlen, Ht, Hjson.
    eexists. split.
    - cbn [log sent]. by rewrite <- app_assoc.
    - right. by exists NoData. }
  eexists. split; [exact Hrun|]. cbn [sent log]. split.
  - by rewrite Hsent, fmap_app, app_assoc.
  - rewrite last_app. done.
Qed.

(** X20. When the batches before batch [c] are answered and the lookup of
    [c] fails hard, by an exception of the transport or by a body that
    the response model rejects, [get_all_tracks] raises that exception
    and no later batch is requested. *)
Theorem get_all_tracks_hard_failure self track_ids chunk_size
    (answer : list Z → list Track) w pre c post e :
  chunk_list track_ids chunk_size = (pre ++ c :: post)%list →
  (∀ j c', pre !! j = Some c' → answered transport validate_tracks self (length (sent w) + j) c' (answer c')) →
  transport (length (sent w) + length pre) (tracks_request self c) = Raise e ∨
  (∃ resp d, transport (length (sent w) + length pre) (tracks_request self c) = Ok resp ∧
             Response.json resp = Some d ∧ validate_tracks d = None ∧
             e = ValidationError) →
  ∃ w',
    get_all_tracks py_repr transport Track validate_tracks self track_ids chunk_size w
      = (w', Raise e) ∧
    sent w' = (sent w ++ (tracks_request self <$> pre ++ [c]))%list.
Proof.
  intros Hchunks Hpre Hfail. unfold get_all_tracks. rewrite Hchunks.
  destruct (collect_tracks_stops self answer pre c post w e
    (λ w1, (get_tracks py_repr transport Track validate_tracks self
              {[ "ids" := VStr (prepare_track_ids c) ]} w1).1) Hpre) as (w1 & Hsent & Hrun).
  { intros w1 Hlen. eexists. split; [apply surjective_pairing|].
    left. rewrite get_tracks_run. cbv zeta. rewrite Hlen.
    destruct Hfail as [->|(resp & d & -> & -> & -> & ->)]; done. }
  eexists. split; [exact Hrun|].
  rewrite get_tracks_run. cbv zeta.
  assert (Hlen : length (sent w1) = (length (sent w) + length pre)%nat)
    by (by rewrite Hsent, length_app, length_fmap).
  rewrite Hlen, fmap_app, app_assoc, <- Hsent.
  destruct Hfail as [->|(resp & d & -> & -> & -> & ->)]; done.
Qed.

(** X21. For a client that has no default query parameter [ids], as a
    client made by [__init__], the lookup of a batch is a GET on the
    [tracks] URL whose query carries the ids of the batch. *)
Theorem get_tracks_carries_ids self chunk w req :
  Client.params self !! "ids" = None →
  req ∈ sent (get_tracks py_repr transport Track validate_tracks self
                {[ "ids" := VStr (prepare_track_ids chunk) ]} w).1 →
  req ∈ sent w ∨
  (req_method req = "GET" ∧ req_url req = Client.base_url self +:+ "/tracks" ∧
   ∃ p, req_kwargs req !! "params" = Some (VDict p) ∧
        p !! "ids" = Some (VStr (prepare_track_ids chunk))).
Proof.
  intros Hids. rewrite get_tracks_run. cbv zeta. intros Hreq.
  assert (req ∈ (sent w ++ [tracks_request self chunk])%list) as
    [?| ->%list_elem_of_singleton]%elem_of_app; [|by left|right].
  { destruct (transport _ _) as [resp|e]; [|done].
    destruct (Response.json resp) as [d|]; [|done].
    by destruct (validate_tracks d). }
  split; [done|]. split; [done|]. eexists. split.
  - unfold tracks_request. cbn [req_kwargs]. rewrite dict_setdefault_lookup.
    rewrite decide_False by done.
    destruct (proxy_set _); cbn.
    + rewrite dict_setdefault_lookup, decide_False by done.
      rewrite lookup_insert_ne by done. by rewrite lookup_insert_eq.
    + rewrite lookup_insert_ne by done. by rewrite lookup_insert_eq.
  - unfold dict_or. rewrite lookup_union_r by done. by rewrite lookup_singleton_eq.
Qed.

End TracksFailures.
(** ** The further properties on the example client *)

(** The one request of a run that started in the empty world. *)
Ltac the_request E :=
  match goal with
  | |- ∃ req, req ∈ ?l ∧ _ =>
      let n := fresh "Hlen" in
      assert (n : length l = 1%nat) by run;
      destruct l as [|req [|]] eqn:E; [discriminate n| |discriminate n];
      clear n; exists req; split; [left|]
  end.

(** A request with parameters beyond the client's. *)
Lemma make_request_keeps_every_key_witness :
  ∃ req,
    req ∈ sent (make_request (constant_transport not_json) example_client "GET"
                  "https://api-v2.soundcloud.com/me" colliding_kwargs empty_world).1 ∧
    ∃ p, req_kwargs req !! "params" = Some (VDict p) ∧ p !! "limit" = Some (VInt 5).
Proof.
  the_request E.
  destruct (make_request_keeps_every_key (constant_transport not_json) example_client "GET"
              "https://api-v2.soundcloud.com/me" colliding_kwargs empty_world req)
    as [[]%elem_of_nil|(p & h & Hp & _ & _ & _ & Hcaller & _)].
  - repeat constructor; run.
  - rewrite E. left.
  - exists p. split; [exact Hp|]. rewrite Hcaller by run. run.
Defined.

(** [params=None]. *)
Lemma make_request_rejects_non_dict_witness :
  make_request (constant_transport not_json) example_client "GET"
    "https://api-v2.soundcloud.com/me" {[ "params" := VNone ]} empty_world
  = (empty_world, Raise TypeError).
Proof.
  apply (make_request_rejects_non_dict _ _ _ _ _ _ "params" VNone).
  - by left.
  - run.
  - intros d. discriminate.
Defined.

(** A client behind a proxy, called without [proxies]. *)
Lemma make_request_proxies_witness :
  ∃ req,
    req ∈ sent (make_request (constant_transport not_json) proxied_client "GET"
                  "https://api-v2.soundcloud.com/me" ∅ empty_world).1 ∧
    req_kwargs req !! "proxies"
    = Some (VDict {[ "https://" := VStr "https://127.0.0.1:8080" ]}).
Proof.
  the_request E.
  destruct (make_request_proxies (constant_transport not_json) proxied_client "GET"
              "https://api-v2.soundcloud.com/me" ∅ empty_world req)
    as [[]%elem_of_nil|Hp].
  - repeat constructor; run.
  - rewrite E. left.
  - rewrite Hp. run.
Defined.

(** A service that is down: its exception is the end of the call. *)
Lemma make_request_once_witness :
  (make_request (λ _ _, Raise TransportError) example_client "GET"
     "https://api-v2.soundcloud.com/me" ∅ empty_world).2 = Raise TransportError.
Proof.
  destruct (make_request_once (λ _ _, Raise TransportError) example_client "GET"
              "https://api-v2.soundcloud.com/me" ∅ empty_world)
    as [(e & He & _)|(kw & _ & Hanswer & _)].
  - repeat constructor; run.
  - destruct (make_request_kwargs_empty example_client) as [kw Hkw].
    rewrite Hkw in He. discriminate He.
  - exact Hanswer.
Defined.

(** A timeout. *)
Lemma make_request_passes_options_witness :
  ∃ req,
    req ∈ sent (make_request (constant_transport not_json) example_client "GET"
                  "https://api-v2.soundcloud.com/me" {[ "timeout" := VInt 5 ]}
                  empty_world).1 ∧
    req_kwargs req !! "timeout" = Some (VInt 5).
Proof.
  the_request E.
  destruct (make_request_passes_options (constant_transport not_json) example_client "GET"
              "https://api-v2.soundcloud.com/me" {[ "timeout" := VInt 5 ]} empty_world
              req "timeout")
    as [[]%elem_of_nil|(_ & _ & Hk)].
  - repeat constructor; run.
  - discriminate.
  - discriminate.
  - discriminate.
  - discriminate.
  - rewrite E. left.
  - rewrite Hk. run.
Defined.

(** The token of the example settings. *)
Lemma make_request_authenticated_witness :
  ∃ req,
    req ∈ sent (make_request (constant_transport not_json)
                  (Client_init example_settings "agent/1.0") "GET"
                  "https://api-v2.soundcloud.com/me" colliding_kwargs empty_world).1 ∧
    ∃ h, req_kwargs req !! "headers" = Some (VDict h) ∧
         h !! "Authorization" = Some (VStr "OAuth secret").
Proof.
  the_request E.
  destruct (make_request_authenticated (constant_transport not_json) example_settings
              "agent/1.0" "GET" "https://api-v2.soundcloud.com/me" colliding_kwargs
              empty_world req)
    as [[]%elem_of_nil|(p & h & _ & Hh & Hauth & _)].
  - repeat constructor; run.
  - rewrite E. left.
  - exists h. split; [exact Hh|exact Hauth].
Defined.

(** [get_playlist] against a service that answers with a playlist. *)
Lemma caller_returns_body_witness :
  ∃ w2,
    caller example_repr playlist_service get_playlist_route example_client
      {[ "playlist_id" := VInt 7 ]} empty_world
    = (w2, Ok (Validated (VModel {[ "id" := VInt 1 ]}))).
Proof.
  edestruct (caller_returns_body example_repr playlist_service get_playlist_route
               example_client {[ "playlist_id" := VInt 7 ]} empty_world) as [_ H];
    [repeat constructor; run|run|run|run|run|reflexivity|].
  eexists. eapply H; [reflexivity|run].
Defined.

(** [get_playlist]: the default of [show_tracks] is in the query. *)
Lemma caller_query_reaches_request_witness :
  ∃ req,
    req ∈ sent (caller example_repr playlist_service get_playlist_route example_client
                  {[ "playlist_id" := VInt 7 ]} empty_world).1 ∧
    ∃ p, req_kwargs req !! "params" = Some (VDict p) ∧
         p !! "show_tracks" = Some (VBool true).
Proof.
  the_request E.
  edestruct (caller_query_reaches_request example_repr playlist_service get_playlist_route
               example_client {[ "playlist_id" := VInt 7 ]} empty_world)
    as [[]%elem_of_nil|(p & Hp & _ & Hq)].
  - repeat constructor; run.
  - run.
  - rewrite E. left.
  - exists p. split; [exact Hp|]. rewrite Hq by run. run.
Defined.

(** Transport options that repeat [params]. *)
Lemma caller_rejects_repeated_keyword_witness :
  caller example_repr playlist_service open_route example_client
    {[ "kwargs" := VDict {[ "params" := VDict ∅ ]} ]} empty_world
  = (World [MakingRequestTo "https://api-v2.soundcloud.com/me"] [], Raise TypeError).
Proof.
  eapply (caller_rejects_repeated_keyword example_repr playlist_service open_route
            example_client {[ "kwargs" := VDict {[ "params" := VDict ∅ ]} ]} empty_world)
    with (options := ({[ "params" := VDict ∅ ]} : pydict)) (k := "params").
  - repeat constructor; run.
  - run.
  - run.
  - run.
  - repeat constructor.
  - eexists. run.
Defined.

(** Transport options that turn verification on and set a timeout. *)
Lemma caller_passes_transport_options_witness :
  ∃ req,
    req ∈ sent (caller example_repr playlist_service open_route example_client
                  {[ "kwargs" := VDict {[ "verify" := VBool true; "timeout" := VInt 5 ]} ]}
                  empty_world).1 ∧
    req_kwargs req !! "verify" = Some (VBool true) ∧
    req_kwargs req !! "timeout" = Some (VInt 5).
Proof.
  the_request E.
  edestruct (caller_passes_transport_options example_repr playlist_service open_route
               example_client
               {[ "kwargs" := VDict {[ "verify" := VBool true; "timeout" := VInt 5 ]} ]}
               empty_world)
    with (options := ({[ "verify" := VBool true; "timeout" := VInt 5 ]} : pydict))
    as [[]%elem_of_nil|[Hverify Hother]].
  - repeat constructor; run.
  - run.
  - reflexivity.
  - run.
  - rewrite E. left.
  - split.
    + rewrite Hverify. run.
    + rewrite Hother; [run|].
      intros Hin. repeat (apply elem_of_cons in Hin as [[=]|Hin]).
      by apply elem_of_nil in Hin.
Defined.

(** A payload for an endpoint that does not annotate [data]. *)
Lemma caller_sends_no_unannotated_body_witness :
  ∃ req,
    req ∈ sent (caller example_repr playlist_service open_route example_client
                  playlist_kwargs empty_world).1 ∧
    req_kwargs req !! "data" = Some VNone.
Proof.
  the_request E.
  edestruct (caller_sends_no_unannotated_body example_repr playlist_service open_route
               example_client playlist_kwargs empty_world)
    as [[]%elem_of_nil|Hdata].
  - repeat constructor; run.
  - reflexivity.
  - run.
  - rewrite E. left.
  - exact Hdata.
Defined.

(** A [params] dict beside a plain argument. *)
Lemma from_route_flattens_params_witness :
  ∃ sp,
    from_route example_client open_endpoint [Lit "search"]
      {[ "params" := VDict {[ "q" := VStr "dub" ]}; "limit" := VInt 3 ]} = Ok sp ∧
    SplitParams.query_params sp !! "q" = Some (VStr "dub") ∧
    SplitParams.query_params sp !! "limit" = Some (VInt 3) ∧
    SplitParams.query_params sp !! "params" = None.
Proof.
  destruct (from_route example_client open_endpoint [Lit "search"]
              {[ "params" := VDict {[ "q" := VStr "dub" ]}; "limit" := VInt 3 ]})
    as [sp|e] eqn:E; [|vm_compute in E; discriminate E].
  exists sp. split; [reflexivity|].
  pose proof (from_route_flattens_params example_client open_endpoint [Lit "search"]
                {[ "params" := VDict {[ "q" := VStr "dub" ]}; "limit" := VInt 3 ]} sp
                {[ "q" := VStr "dub" ]}) as H.
  assert (Hq : ∀ k, SplitParams.query_params sp !! k =
                    match ({[ "q" := VStr "dub" ]} : pydict) !! k with
                    | Some v => Some v
                    | None =>
                        if decide (k = "params" ∨ k ∈ field_names [Lit "search"]) then None
                        else plain_arguments open_endpoint
                               {[ "params" := VDict {[ "q" := VStr "dub" ]};
                                  "limit" := VInt 3 ]} !! k
                    end).
  { apply H.
    - repeat constructor; run.
    - exact E.
    - reflexivity.
    - run.
    - intros []%elem_of_nil. }
  split; [|split]; rewrite Hq; run.
Defined.

(** [get_playlist] with both of its parameters. *)
Lemma from_route_splits_in_two_witness :
  ∃ sp,
    from_route example_client (Route.endpoint get_playlist_route)
      (Route.path get_playlist_route)
      {[ "playlist_id" := VInt 7; "show_tracks" := VBool false ]} = Ok sp ∧
    SplitParams.path_params sp ##ₘ SplitParams.query_params sp ∧
    SplitParams.path_params sp ∪ SplitParams.query_params sp
    = {[ "playlist_id" := VInt 7; "show_tracks" := VBool false ]}.
Proof.
  destruct (from_route example_client (Route.endpoint get_playlist_route)
              (Route.path get_playlist_route)
              {[ "playlist_id" := VInt 7; "show_tracks" := VBool false ]})
    as [sp|e] eqn:E; [|vm_compute in E; discriminate E].
  exists sp. split; [reflexivity|].
  destruct (from_route_splits_in_two example_client (Route.endpoint get_playlist_route)
              (Route.path get_playlist_route)
              {[ "playlist_id" := VInt 7; "show_tracks" := VBool false ]} sp)
    as (Hdisjoint & Hunion & _).
  - repeat constructor; run.
  - exact E.
  - run.
  - run.
  - split; [exact Hdisjoint|]. rewrite Hunion. run.
Defined.

(** [get_playlist] is the second declaration of the client. *)
Lemma get_playlist_declared sc_a_id :
  ("get_playlist",
   Declaration "GET" [Lit "playlists/"; Field "playlist_id"] ["playlist_id"]
     [("show_tracks", VBool true)] false) ∈ declared_endpoints sc_a_id.
Proof. apply elem_of_cons. right. apply elem_of_cons. by left. Qed.

(** [get_playlist] called with transport options. *)
Lemma declared_endpoint_takes_no_options_witness :
  caller example_repr playlist_service
    (declaration_route
       (Declaration "GET" [Lit "playlists/"; Field "playlist_id"] ["playlist_id"]
          [("show_tracks", VBool true)] false)
       playlist_create_dump (Some playlist_model))
    example_client
    {[ "playlist_id" := VInt 7; "kwargs" := VDict {[ "verify" := VBool true ]} ]}
    empty_world
  = (empty_world, Raise TypeError).
Proof.
  apply (declared_endpoint_takes_no_options example_repr playlist_service VNone
           "get_playlist" _ _ _ _ _ _ "kwargs").
  - apply get_playlist_declared.
  - by left.
  - eexists. run.
Defined.

(** [get_playlist] called with its [playlist_id]. *)
Lemma declared_endpoint_reaches_network_witness :
  ∃ parts req,
    Forall2 (fills example_repr {[ "playlist_id" := VInt 7 ]})
      [Lit "playlists/"; Field "playlist_id"] parts ∧
    req_method req = "GET" ∧
    req_url req = "https://api-v2.soundcloud.com" +:+ "/" +:+ str_concat parts ∧
    sent (caller example_repr playlist_service
            (declaration_route
               (Declaration "GET" [Lit "playlists/"; Field "playlist_id"] ["playlist_id"]
                  [("show_tracks", VBool true)] false)
               playlist_create_dump (Some playlist_model))
            example_client {[ "playlist_id" := VInt 7 ]} empty_world).1 = [req].
Proof.
  destruct (declared_endpoint_reaches_network example_repr playlist_service VNone
              "get_playlist"
              (Declaration "GET" [Lit "playlists/"; Field "playlist_id"] ["playlist_id"]
                 [("show_tracks", VBool true)] false)
              playlist_create_dump (Some playlist_model) example_client
              {[ "playlist_id" := VInt 7 ]})
    as (parts & req & Hparts & Hmethod & Hurl & Hsent).
  - apply get_playlist_declared.
  - apply (bool_decide_unpack _). vm_compute. exact I.
  - apply (bool_decide_unpack _). vm_compute. exact I.
  - intros v Hv. vm_compute in Hv. discriminate Hv.
  - exists parts, req. split; [exact Hparts|]. split; [exact Hmethod|].
    split; [exact Hurl|]. exact (Hsent empty_world).
Defined.



(** Three ids, one of them negative. *)
Lemma prepare_track_ids_round_trip_witness :
  split_on "," (prepare_track_ids [3; -1; 20]) = ["3"; "-1"; "20"].
Proof.
  rewrite prepare_track_ids_round_trip; [reflexivity|discriminate].
Defined.

(** Three ids in batches of two, against a service that answers the
    first lookup only. *)
Lemma get_all_tracks_soft_failure_witness :
  ∃ w',
    get_all_tracks example_repr then_html string ids_as_tracks example_client
      [1; 2; 3] 2 empty_world = (w', Raise TypeError) ∧
    length (sent w') = 2%nat.
Proof.
  destruct (get_all_tracks_soft_failure example_repr then_html string ids_as_tracks
              example_client [1; 2; 3] 2 (fmap pretty) empty_world [[1; 2]] [3] [] not_json)
    as (w' & Hrun & Hsent & _).
  - reflexivity.
  - intros [|j] c' Hj; [|discriminate Hj]. injection Hj as <-.
    eexists _, _. split; [run|]. split; [reflexivity|run].
  - run.
  - reflexivity.
  - exists w'. split; [exact Hrun|]. rewrite Hsent. reflexivity.
Defined.

Lemma get_all_tracks_hard_failure_witness :
  ∃ w',
    get_all_tracks example_repr then_down string ids_as_tracks example_client
      [1; 2; 3] 2 empty_world = (w', Raise TransportError) ∧
    length (sent w') = 2%nat.
Proof.
  destruct (get_all_tracks_hard_failure example_repr then_down string ids_as_tracks
              example_client [1; 2; 3] 2 (fmap pretty) empty_world [[1; 2]] [3] []
              TransportError)
    as (w' & Hrun & Hsent).
  - reflexivity.
  - intros [|j] c' Hj; [|discriminate Hj]. injection Hj as <-.
    eexists _, _. split; [run|]. split; [reflexivity|run].
  - left. run.
  - exists w'. split; [exact Hrun|]. rewrite Hsent. reflexivity.
Defined.

(** The lookup of one batch by the example client. *)
Lemma get_tracks_carries_ids_witness :
  ∃ req,
    req ∈ sent (get_tracks example_repr echo_transport string ids_as_tracks example_client
                  {[ "ids" := VStr (prepare_track_ids [1; 2]) ]} empty_world).1 ∧
    req_url req = "https://api-v2.soundcloud.com/tracks" ∧
    ∃ p, req_kwargs req !! "params" = Some (VDict p) ∧ p !! "ids" = Some (VStr "1,2").
Proof.
  the_request E.
  destruct (get_tracks_carries_ids example_repr echo_transport string ids_as_tracks
              example_client [1; 2] empty_world req)
    as [[]%elem_of_nil|(_ & Hurl & p & Hp & Hids)].
  - run.
  - rewrite E. left.
  - split; [exact Hurl|]. exists p. split; [exact Hp|exact Hids].
Defined.
